(** * GENEA visualizer: the render worker of celery-queue/tasks.py

    A shallow embedding of [validate_bvh_file] and of the [render] task,
    followed by the properties of the validator and of the task lifecycle.

    Python values are modelled as the interpreter has them: [int] as [Z],
    [float] as an IEEE binary64 number ([PrimFloat.float]), [str] as the list
    of its code points, [bytes] as a list of bytes, [None]-or-value as
    [option].  Exceptions are explicit results; the observable actions of the
    task (state updates, HTTP requests, the subprocess) are recorded in a
    trace of events. *)

From Stdlib Require Import ZArith List Bool String Ascii Lia.
From Stdlib Require Import Strings.Byte DecimalString.
From Stdlib Require Import Floats.PrimFloat Floats.SpecFloat Floats.FloatOps.
From Stdlib Require Import Numbers.Cyclic.Int63.Uint63.
Import ListNotations.

Local Open Scope Z_scope.

(* ===================================================================== *)
(** * Python values and built-in operations used by tasks.py              *)
(* ===================================================================== *)

Module Py.

(** A [str] is a sequence of Unicode code points, a [bytes] a sequence of
    bytes. *)
Definition str : Type := list Z.
Definition bytes : Type := list byte.

(** A string literal of the source (all of them are ASCII). *)
Definition lit (s : string) : str :=
  map (fun a => Z.of_N (N_of_ascii a)) (list_ascii_of_string s).

Arguments lit : simpl never.

(** A bytes literal, [b"..."]. *)
Definition blit (s : string) : bytes := list_byte_of_string s.

(** The exceptions of the interpreter and of the imported packages: none of
    them is the [TaskFailure] class that tasks.py declares, which is why they
    have a type of their own. *)
Inductive builtin_exn : Type :=
| KeyError
| ValueError
| OverflowError
| ZeroDivisionError
| UnicodeDecodeError
| LookupError
| IndexError
| OSError
| RequestException.

(** The outcome of an expression that may raise. *)
Inductive result (E A : Type) : Type :=
| Ret (a : A)
| Raise (e : E).
Arguments Ret {E A} a.
Arguments Raise {E A} e.

Definition bind {E A B} (m : result E A) (k : A -> result E B) : result E B :=
  match m with
  | Ret a => k a
  | Raise e => Raise e
  end.

(** ** [str] methods *)

Fixpoint str_eqb (s t : str) : bool :=
  match s, t with
  | [], [] => true
  | x :: s', y :: t' => (x =? y) && str_eqb s' t'
  | _, _ => false
  end.

(** [s.startswith(prefix)] *)
Fixpoint startswith (prefix s : str) : bool :=
  match prefix, s with
  | [], _ => true
  | p :: prefix', x :: s' => (p =? x) && startswith prefix' s'
  | _ :: _, [] => false
  end.

(** [str.isspace] on one code point: the white space of CPython's Unicode
    database (bidirectional type WS, B or S, or category Zs). *)
Definition isspace (c : Z) : bool :=
  ((9 <=? c) && (c <=? 13)) || ((28 <=? c) && (c <=? 32))
  || (c =? 133) || (c =? 160) || (c =? 5760)
  || ((8192 <=? c) && (c <=? 8202))
  || (c =? 8232) || (c =? 8233) || (c =? 8239) || (c =? 8287) || (c =? 12288).

Fixpoint lstrip (s : str) : str :=
  match s with
  | [] => []
  | c :: s' => if isspace c then lstrip s' else s
  end.

Definition rstrip (s : str) : str := rev (lstrip (rev s)).

(** [s.strip()] *)
Definition strip (s : str) : str := lstrip (rstrip s).

(** Truth value of a [str]: non-empty. *)
Definition str_truthy (s : str) : bool :=
  match s with [] => false | _ :: _ => true end.

(** [s.split(sep)] for a separator of one character; the result is never
    empty and keeps empty fields. *)
Fixpoint split (sep : Z) (s : str) : list str :=
  match s with
  | [] => [[]]
  | c :: s' =>
      if c =? sep then [] :: split sep s'
      else match split sep s' with
           | w :: ws => (c :: w) :: ws
           | [] => [[c]]
           end
  end.

Definition LF : Z := 10.
Definition SPACE : Z := 32.
Definition SLASH : Z := 47.

(** [os.path.basename(p)]: what follows the last slash. *)
Definition basename (p : str) : str := last (split SLASH p) [].

(** [str(n)] for an [int]. *)
Definition str_of_int (n : Z) : str := lit (NilZero.string_of_int (Z.to_int n)).

(** [str(v)] for a value that is [None] or an [int]. *)
Definition str_of_opt_int (v : option Z) : str :=
  match v with
  | None => lit "None"
  | Some n => str_of_int n
  end.

(** ** [bytes.decode("utf-8")] (strict) *)

Definition byteZ (b : byte) : Z := Z.of_N (Byte.to_N b).

Definition is_cont (b : Z) : bool := (128 <=? b) && (b <=? 191).

Definition payload (b : Z) : Z := Z.land b 63.

Fixpoint utf8_decode (bs : list Z) : option str :=
  match bs with
  | [] => Some []
  | b0 :: t0 =>
      if b0 <? 128 then option_map (cons b0) (utf8_decode t0)
      else if (194 <=? b0) && (b0 <=? 223) then
        match t0 with
        | b1 :: t1 =>
            if is_cont b1
            then option_map (cons (Z.land b0 31 * 64 + payload b1)) (utf8_decode t1)
            else None
        | _ => None
        end
      else if (224 <=? b0) && (b0 <=? 239) then
        match t0 with
        | b1 :: b2 :: t2 =>
            let c := Z.land b0 15 * 4096 + payload b1 * 64 + payload b2 in
            if is_cont b1 && is_cont b2 && (2048 <=? c)
               && negb ((55296 <=? c) && (c <=? 57343))
            then option_map (cons c) (utf8_decode t2)
            else None
        | _ => None
        end
      else if (240 <=? b0) && (b0 <=? 244) then
        match t0 with
        | b1 :: b2 :: b3 :: t3 =>
            let c := Z.land b0 7 * 262144 + payload b1 * 4096
                     + payload b2 * 64 + payload b3 in
            if is_cont b1 && is_cont b2 && is_cont b3
               && (65536 <=? c) && (c <=? 1114111)
            then option_map (cons c) (utf8_decode t3)
            else None
        | _ => None
        end
      else None
  end.

Definition decode (b : bytes) : result builtin_exn str :=
  match utf8_decode (map byteZ b) with
  | Some s => Ret s
  | None => Raise UnicodeDecodeError
  end.

(** ** Numbers *)

(** Truth value of a variable holding [None] or an [int]: [None] and [0] are
    false. *)
Definition truthy (v : option Z) : bool :=
  match v with
  | None => false
  | Some n => negb (n =? 0)
  end.

(** [v != n] where [v] is [None] or an [int]: [None] differs from every
    [int]. *)
Definition ne_opt_int (v : option Z) (n : Z) : bool :=
  match v with
  | None => true
  | Some m => negb (m =? n)
  end.

(** [x != y] on floats (true as soon as one side is a NaN). *)
Definition float_ne (x y : float) : bool := negb (PrimFloat.eqb x y).

(** [x / y] on floats: division by a zero of either sign raises. *)
Definition truediv (x y : float) : result builtin_exn float :=
  if PrimFloat.eqb y PrimFloat.zero then Raise ZeroDivisionError
  else Ret (PrimFloat.div x y).

(** [int(x)] for a float: truncation towards zero; a NaN is a [ValueError],
    an infinity an [OverflowError]. *)
Definition int_of_float (x : float) : result builtin_exn Z :=
  match Prim2SF x with
  | S754_nan => Raise ValueError
  | S754_infinity _ => Raise OverflowError
  | S754_zero _ => Ret 0
  | S754_finite s m e =>
      let a := if 0 <=? e then Z.pos m * 2 ^ e else Z.pos m / 2 ^ (- e) in
      Ret (if s then - a else a)
  end.

(** The conversions [int(s)] and [float(s)] of a [str] belong to the
    interpreter; the task only relies on their result, a number or an
    exception. *)
Class Builtins : Type := {
  int_of_str : str -> result builtin_exn Z;
  float_of_str : str -> result builtin_exn float
}.

(** A reading of plain decimal numerals: an optional minus sign followed by
    ASCII digits. *)
Fixpoint digits_value (acc : Z) (s : str) : option Z :=
  match s with
  | [] => Some acc
  | c :: s' =>
      if (48 <=? c) && (c <=? 57) then digits_value (acc * 10 + (c - 48)) s'
      else None
  end.

Definition numeral_value (s : str) : option Z :=
  match s with
  | [] => None
  | 45 :: (_ :: _) as ds => option_map Z.opp (digits_value 0 ds)
  | _ => digits_value 0 s
  end.

End Py.
(* ===================================================================== *)
(** * The worker: celery-queue/tasks.py                                    *)
(* ===================================================================== *)

Module Tasks.
Import Py.

(** An f-string of the source once formatted: text, with the [repr] of a
    float kept as the float it prints. *)
Inductive piece : Type :=
| Lit (s : str)
| FloatRepr (x : float).

Definition message : Type := list piece.

(** [class TaskFailure(Exception)] next to everything else that can be
    raised. *)
Inductive exn : Type :=
| TaskFailure (msg : message)
| Builtin (e : builtin_exn).

(** An exception of the interpreter or of a package, raised through the
    task's code, which has no [try]. *)
Definition builtin {A} (m : result builtin_exn A) : result exn A :=
  match m with
  | Ret a => Ret a
  | Raise e => Raise (Builtin e)
  end.

Declare Scope py_scope.
Delimit Scope py_scope with py.
Notation "x <- m ;; k" := (bind m (fun x => k))
  (at level 100, m at next level, right associativity) : py_scope.

(** The [bvh] package of line 15 is imported, not part of the repository: the
    validator is stated for any reader with the [Bvh] constructor and the two
    properties it reads, each of which answers or raises. *)
Class BvhPackage : Type := {
  Mocap : Type;
  Bvh : str -> result builtin_exn Mocap;
  nframes : Mocap -> result builtin_exn Z;
  frame_time : Mocap -> result builtin_exn float
}.

(** [os.environ] *)
Definition Environ : Type := string -> option str.

Definition getenv (environ : Environ) (key : string) : result builtin_exn str :=
  match environ key with
  | Some v => Ret v
  | None => Raise KeyError
  end.

(** ** validate_bvh_file *)

(** One turn of the loop of lines 42-46. *)
Definition count_step (counter : option Z) (line : str) : option Z :=
  let counter :=
    match counter with
    | Some c => if str_truthy (strip line) then Some (c + 1) else Some c
    | None => None
    end in
  if str_eqb (strip line) (lit "MOTION") then Some (-2) else counter.

Definition count_rows (file_content : str) : option Z :=
  fold_left count_step (split LF file_content) None.

Definition rows_message (counter : option Z) (n : Z) : message :=
  [Lit (lit "The number of rows with motion data (" ++ str_of_opt_int counter
        ++ lit ") does not match the Frames field (" ++ str_of_int n ++ lit ")")].

Definition too_many_message (n max_frames : Z) : message :=
  [Lit (lit "The supplied number of frames (" ++ str_of_int n
        ++ lit ") is bigger than " ++ str_of_int max_frames)].

Definition frame_time_message (t required : float) : message :=
  [Lit (lit "The supplied frame time ("); FloatRepr t;
   Lit (lit ") differs from the required "); FloatRepr required].

Section Validator.
Context {B : Builtins} {P : BvhPackage}.
Variable environ : Environ.

Local Open Scope py_scope.

Definition validate_bvh_file (bvh_file : bytes) : result exn unit :=
  v <- builtin (getenv environ "MAX_NUMBER_FRAMES") ;;
  MAX_NUMBER_FRAMES <- builtin (int_of_str v) ;;
  v <- builtin (getenv environ "RENDER_FPS") ;;
  fps <- builtin (float_of_str v) ;;
  FRAME_TIME <- builtin (truediv 1%float fps) ;;
  file_content <- builtin (decode bvh_file) ;;
  mocap <- builtin (Bvh file_content) ;;
  let counter := count_rows file_content in
  n <- builtin (nframes mocap) ;;
  if ne_opt_int counter n then Raise (TaskFailure (rows_message counter n))
  else if negb (MAX_NUMBER_FRAMES =? -1) && (n >? MAX_NUMBER_FRAMES)
  then Raise (TaskFailure (too_many_message n MAX_NUMBER_FRAMES))
  else
    t <- builtin (frame_time mocap) ;;
    if float_ne t FRAME_TIME
    then Raise (TaskFailure (frame_time_message t FRAME_TIME))
    else Ret tt.

End Validator.

(** ** render *)

(** A Python [dict] with [str] keys, in insertion order. *)
Definition dict (V : Type) : Type := list (str * V).

(** A file object opened for reading. *)
Record file : Type := { file_name : str }.

(** [meta] of a RENDERING update. *)
Record progress : Type := { current : Z; total : Z }.

(** What the task does to the outside, in order. *)
Inductive event : Type :=
| LogInfo (text : str)
| UpdateState (state : str) (meta : option progress)
| HttpGet (url : str) (headers : dict str)
| TmpWrite (name : str) (content : bytes)
| PopenCall (argv : list str)
| OpenFile (path : str)
| HttpPost (url : str) (files : dict (str * file)) (headers : dict str)
| TmpRemove (name : str).

(** The renderer once started: the lines its standard output yields, the
    content of its standard error, and the status it exits with. *)
Record Child : Type := {
  child_stdout : list bytes;
  child_stderr : bytes;
  child_status : Z
}.

(** A [subprocess.Popen] object. *)
Record Popen : Type := {
  stdout : list bytes;
  stderr : bytes;
  returncode : option Z
}.

(** [Popen.__init__]: [returncode] starts as [None]; only [poll], [wait] and
    [communicate] assign it. *)
Definition Popen_init (c : Child) : Popen :=
  {| stdout := child_stdout c; stderr := child_stderr c; returncode := None |}.

(** The collaborators of one invocation: the API server, the file system and
    the renderer. *)
Record World : Type := {
  requests_get : str -> dict str -> result builtin_exn bytes;
  requests_post : str -> dict (str * file) -> dict str -> result builtin_exn str;
  tmp_name : str;
  popen : list str -> result builtin_exn Child;
  open_error : str -> option builtin_exn
}.

(** A computation of the task: the events so far and how it ended. *)
Definition task (A : Type) : Type := (list event * result exn A)%type.

Definition tret {A} (a : A) : task A := ([], Ret a).

Definition tbind {A C} (m : task A) (k : A -> task C) : task C :=
  match snd m with
  | Ret a => (fst m ++ fst (k a), snd (k a))
  | Raise e => (fst m, Raise e)
  end.

Definition emit (ev : event) : task unit := ([ev], Ret tt).

Definition lift {A} (m : result exn A) : task A := ([], m).

Declare Scope task_scope.
Delimit Scope task_scope with task.
Notation "x <- m ;; k" := (tbind m (fun x => k))
  (at level 100, m at next level, right associativity) : task_scope.

(** How one turn of the [for] loop leaves: on to the next line with the two
    variables, or out of the function through [return]. *)
Inductive flow : Type :=
| Next (total current_frame : option Z)
| Return (text : str).

(** How the [for] loop ends when nothing is raised. *)
Inductive loop_end : Type :=
| Exhausted (total current_frame : option Z)
| Returned (text : str).

Definition RENDERING : str := lit "RENDERING".
Definition PROCESSING : str := lit "PROCESSING".

(** The dictionary of line 66, [{"Authorization": "Bearer " + token}]. *)
Definition headers_of (token : str) : dict str :=
  [(lit "Authorization", lit "Bearer " ++ token)].
Arguments headers_of : simpl never.

Section Render.
Context {B : Builtins} {P : BvhPackage}.
Variable environ : Environ.
Variable w : World.

Local Open Scope task_scope.

(** [open(path, "rb")] *)
Definition open_rb (path : str) : task file :=
  _ <- emit (OpenFile path) ;;
  match open_error w path with
  | None => tret {| file_name := path |}
  | Some e => lift (Raise (Builtin e))
  end.

(** The [if]/[elif] chain of lines 96-107 on a decoded, stripped line. *)
Definition dispatch (HEADERS : dict str) (API_SERVER : str)
    (line : str) (total current_frame : option Z) : task flow :=
  if startswith (lit "total_frames ") line then
    match split SPACE line with
    | [_; tok] =>
        x <- lift (builtin (float_of_str tok)) ;;
        n <- lift (builtin (int_of_float x)) ;;
        tret (Next (Some n) current_frame)
    | _ => lift (Raise (Builtin ValueError))
    end
  else if startswith (lit "Append frame ") line then
    n <- lift (builtin (int_of_str (last (split SPACE line) []))) ;;
    tret (Next total (Some n))
  else if startswith (lit "output_file") line then
    match split SPACE line with
    | [_; name] =>
        let base := basename name in
        f <- open_rb name ;;
        let files := [(lit "file", (base, f))] in
        let url := API_SERVER ++ lit "/upload_video" in
        _ <- emit (HttpPost url files HEADERS) ;;
        text <- lift (builtin (requests_post w url files HEADERS)) ;;
        tret (Return text)
    | _ => lift (Raise (Builtin ValueError))
    end
  else tret (Next total current_frame).

(** The update of lines 108-111. *)
Definition report (total current_frame : option Z) : task unit :=
  match total, current_frame with
  | Some t, Some c =>
      if truthy total && truthy current_frame
      then emit (UpdateState RENDERING (Some {| current := c; total := t |}))
      else tret tt
  | _, _ => tret tt
  end.

(** One turn of the loop of lines 94-111. *)
Definition loop_body (HEADERS : dict str) (API_SERVER : str)
    (raw : bytes) (total current_frame : option Z) : task flow :=
  text <- lift (builtin (decode raw)) ;;
  let line := strip text in
  r <- dispatch HEADERS API_SERVER line total current_frame ;;
  match r with
  | Return v => tret (Return v)
  | Next total' current_frame' =>
      _ <- report total' current_frame' ;;
      tret (Next total' current_frame')
  end.

(** [for line in process.stdout: ...] *)
Fixpoint for_stdout (HEADERS : dict str) (API_SERVER : str)
    (lines : list bytes) (total current_frame : option Z) : task loop_end :=
  match lines with
  | [] => tret (Exhausted total current_frame)
  | raw :: rest =>
      r <- loop_body HEADERS API_SERVER raw total current_frame ;;
      match r with
      | Return v => tret (Returned v)
      | Next total' current_frame' =>
          for_stdout HEADERS API_SERVER rest total' current_frame'
      end
  end.

Definition blender_argv (name : str) : list str :=
  [lit "/blender/blender-2.83.0-linux64/blender"; lit "-noaudio"; lit "-b";
   lit "--python"; lit "blender_render.py"; lit "--"; name].

(** [with tempfile.NamedTemporaryFile(suffix=".bhv") as tmpf: ...]: the file
    is removed however the block is left. *)
Definition with_tmpfile {A} (body : str -> task A) : task A :=
  let name := tmp_name w in
  (fst (body name) ++ [TmpRemove name], snd (body name)).

Definition render (bvh_file_uri : str) : task (option str) :=
  token <- lift (builtin (getenv environ "SYSTEM_TOKEN")) ;;
  let HEADERS := headers_of token in
  API_SERVER <- lift (builtin (getenv environ "API_SERVER")) ;;
  _ <- emit (LogInfo (lit "rendering..")) ;;
  _ <- emit (UpdateState PROCESSING None) ;;
  _ <- emit (HttpGet (API_SERVER ++ bvh_file_uri) HEADERS) ;;
  bvh_file <- lift (builtin (requests_get w (API_SERVER ++ bvh_file_uri) HEADERS)) ;;
  _ <- lift (validate_bvh_file environ bvh_file) ;;
  with_tmpfile (fun name =>
    _ <- emit (TmpWrite name bvh_file) ;;
    _ <- emit (PopenCall (blender_argv name)) ;;
    child <- lift (builtin (popen w (blender_argv name))) ;;
    let process := Popen_init child in
    r <- for_stdout HEADERS API_SERVER (stdout process) None None ;;
    match r with
    | Returned text => tret (Some text)
    | Exhausted _ _ =>
        if ne_opt_int (returncode process) 0
        then
          text <- lift (builtin (decode (stderr process))) ;;
          lift (Raise (TaskFailure [Lit text]))
        else tret None
    end).

(** How the task ends once the renderer runs, from how the loop ended
    (lines 105 and 112-113). *)
Definition finish (process : Popen) (r : result exn loop_end) : result exn (option str) :=
  match r with
  | Ret (Returned text) => Ret (Some text)
  | Ret (Exhausted _ _) =>
      if ne_opt_int (returncode process) 0
      then bind (builtin (decode (stderr process)))
             (fun text => Raise (TaskFailure [Lit text]))
      else Ret None
  | Raise e => Raise e
  end.

(** The two variables after each line the loop gets through, in order. *)
Fixpoint loop_states (HEADERS : dict str) (API_SERVER : str)
    (lines : list bytes) (total current_frame : option Z)
    : list (option Z * option Z) :=
  match lines with
  | [] => []
  | raw :: rest =>
      match decode raw with
      | Ret text =>
          match snd (dispatch HEADERS API_SERVER (strip text) total current_frame) with
          | Ret (Next total' current_frame') =>
              (total', current_frame')
                :: loop_states HEADERS API_SERVER rest total' current_frame'
          | _ => []
          end
      | Raise _ => []
      end
  end.

End Render.

(** What the task does before it validates (lines 69-72). *)
Definition opening (api uri token : str) : list event :=
  [LogInfo (lit "rendering.."); UpdateState PROCESSING None;
   HttpGet (api ++ uri) (headers_of token)].

(** The RENDERING updates of a trace, in order. *)
Definition rendering_update (ev : event) : list progress :=
  match ev with
  | UpdateState state (Some meta) => if str_eqb state RENDERING then [meta] else []
  | _ => []
  end.

Definition rendering_updates (trace : list event) : list progress :=
  flat_map rendering_update trace.

(** The update that a pair of values is due: one when both are set and
    non-zero. *)
Definition due (st : option Z * option Z) : list progress :=
  match st with
  | (Some t, Some c) =>
      if negb (t =? 0) && negb (c =? 0) then [{| current := c; total := t |}] else []
  | _ => []
  end.

(** A decoded, stripped line that starts with a recognized prefix and whose
    payload is malformed. *)
Inductive malformed {B : Builtins} (line : str) : Prop :=
| total_frames_tokens :
    startswith (lit "total_frames ") line = true ->
    List.length (split SPACE line) <> 2%nat ->
    malformed line
| total_frames_literal (a tok : str) (e : builtin_exn) :
    startswith (lit "total_frames ") line = true ->
    split SPACE line = [a; tok] ->
    float_of_str tok = Raise e ->
    malformed line
| append_frame_literal (e : builtin_exn) :
    startswith (lit "Append frame ") line = true ->
    int_of_str (last (split SPACE line) []) = Raise e ->
    malformed line
| output_file_tokens :
    startswith (lit "output_file") line = true ->
    List.length (split SPACE line) <> 2%nat ->
    malformed line.

(** ** The configuration and the header, as the validator reads them *)

Section Readings.
Context {B : Builtins} {P : BvhPackage}.
Local Open Scope py_scope.

(** Lines 36-37: [MAX_NUMBER_FRAMES] and [FRAME_TIME]. *)
Definition limits (environ : Environ) : result exn (Z * float) :=
  v <- builtin (getenv environ "MAX_NUMBER_FRAMES") ;;
  MAX_NUMBER_FRAMES <- builtin (int_of_str v) ;;
  v <- builtin (getenv environ "RENDER_FPS") ;;
  fps <- builtin (float_of_str v) ;;
  FRAME_TIME <- builtin (truediv 1%float fps) ;;
  Ret (MAX_NUMBER_FRAMES, FRAME_TIME).

(** The three checks of lines 48-61, once the configuration is read, the
    bytes are decoded and the reader has answered with the frame count. *)
Definition checks (max_frames : Z) (required : float) (counter : option Z)
    (mocap : Mocap) (n : Z) : result exn unit :=
  if ne_opt_int counter n then Raise (TaskFailure (rows_message counter n))
  else if negb (max_frames =? -1) && (n >? max_frames)
  then Raise (TaskFailure (too_many_message n max_frames))
  else
    bind (builtin (frame_time mocap)) (fun t =>
      if float_ne t required
      then Raise (TaskFailure (frame_time_message t required))
      else Ret tt).

(** No line of the text is the MOTION marker. *)
Definition no_motion_line (file_content : str) : bool :=
  forallb (fun line => negb (str_eqb (strip line) (lit "MOTION")))
          (split LF file_content).

End Readings.

(** ** Sample collaborators and inputs *)

(** The conversions restricted to plain decimal numerals (anything else is
    answered with [ValueError]); exact for numerals below 2^53. *)
Definition float_of_Z (n : Z) : float :=
  if n <? 0 then PrimFloat.opp (PrimFloat.of_uint63 (Uint63.of_Z (- n)))
  else PrimFloat.of_uint63 (Uint63.of_Z n).

Definition numeral_builtins : Builtins := {|
  int_of_str s :=
    match numeral_value s with
    | Some n => Ret n
    | None => Raise ValueError
    end;
  float_of_str s :=
    match numeral_value s with
    | Some n => Ret (float_of_Z n)
    | None => Raise ValueError
    end
|}.

(** The answers of the [bvh] package on a document whose MOTION header
    declares [n] frames and the frame time [t]. *)
Definition header_reader (n : Z) (t : float) : BvhPackage := {|
  Mocap := unit;
  Bvh _ := Ret tt;
  nframes _ := Ret n;
  frame_time _ := Ret t
|}.

(** The answers of the [bvh] package on a document without a [Frames:] and a
    [Frame Time:] field: both properties raise [LookupError]. *)
Definition headerless_reader : BvhPackage := {|
  Mocap := unit;
  Bvh _ := Ret tt;
  nframes _ := Raise LookupError;
  frame_time _ := Raise LookupError
|}.

(** The answers of the [bvh] package on a document that has a [Frames:]
    field declaring [n] and no [Frame Time:] field. *)
Definition frames_only_reader (n : Z) : BvhPackage := {|
  Mocap := unit;
  Bvh _ := Ret tt;
  nframes _ := Ret n;
  frame_time _ := Raise LookupError
|}.

Definition sample_environ (max_frames fps : string) : Environ :=
  fun key =>
    if String.eqb key "MAX_NUMBER_FRAMES" then Some (lit max_frames)
    else if String.eqb key "RENDER_FPS" then Some (lit fps)
    else if String.eqb key "SYSTEM_TOKEN" then Some (lit "s3cret")
    else if String.eqb key "API_SERVER" then Some (lit "http://api")
    else None.

Definition newline : string := String (ascii_of_nat 10) EmptyString.

Definition skeleton : list string :=
  ["HIERARCHY"; "ROOT Hips"; "{"; "  OFFSET 0.0 0.0 0.0";
   "  CHANNELS 3 Xposition Yposition Zposition"; "  End Site"; "  {";
   "    OFFSET 0.0 1.0 0.0"; "  }"; "}"]%string.

Definition motion_text (frames frame_time_field : string) (rows : list string) : string :=
  String.concat ""
    (map (fun l => (l ++ newline)%string)
         (skeleton ++ ["MOTION"; "Frames: " ++ frames;
                       "Frame Time: " ++ frame_time_field] ++ rows))%string.

Definition rows3 : list string := ["0.0 0.0 0.0"; "0.0 1.0 0.0"; "0.0 2.0 0.0"]%string.
Definition rows2 : list string := ["0.0 0.0 0.0"; "0.0 1.0 0.0"]%string.

(** The file of the first end-to-end scenario: three rows, [Frames: 3],
    [Frame Time: 0.04166667]. *)
Definition three_rows : bytes := blit (motion_text "3" "0.04166667" rows3).

(** The same file with the frame time written with all its digits. *)
Definition three_rows_exact : bytes :=
  blit (motion_text "3" "0.041666666666666664" rows3).

(** The second scenario: the header declares three frames over two rows. *)
Definition two_rows_exact : bytes :=
  blit (motion_text "3" "0.041666666666666664" rows2).

(** One line of bytes, with its line feed. *)
Definition bline (s : string) : bytes := blit (s ++ newline).

(** A file without a MOTION line. *)
Definition frames_line_only : bytes := bline "Frames: 3".

(** [float("0.04166667")]: the quotient of two integers that binary64 holds
    exactly is rounded once, to the double nearest to the decimal. *)
Definition ft_0_04166667 : float :=
  PrimFloat.div (PrimFloat.of_uint63 4166667) (PrimFloat.of_uint63 100000000).

(** [1.0 / 24.0] *)
Definition ft_24fps : float := PrimFloat.div 1%float (PrimFloat.of_uint63 24).

(** The API server, the file system and a renderer that writes [out] and
    [err] and exits with [status]. *)
Definition sample_world (bvh_file : bytes) (out : list bytes) (err : bytes)
    (status : Z) : World := {|
  requests_get _ _ := Ret bvh_file;
  requests_post _ _ _ := Ret (lit "uploaded");
  tmp_name := lit "/tmp/tmpq1w2e3.bhv";
  popen _ := Ret {| child_stdout := out; child_stderr := err; child_status := status |};
  open_error _ := None
|}.

Definition env24 : Environ := sample_environ "-1" "24".

Definition uri42 : str := lit "/bvh/42".

(** The fourth scenario, shortened: a total, two frames, the output file,
    and a line after it. *)
Definition out_complete : list bytes :=
  [bline "total_frames 10"; bline "Append frame 1"; bline "Append frame 2";
   bline "output_file /tmp/out.mp4"; bline "Blender quit"].

(** A renderer that stops without naming an output file. *)
Definition out_silent : list bytes :=
  [bline "Blender 2.83.0"; bline "total_frames 3"].

(** A renderer whose first frame is numbered 0. *)
Definition out_frame_zero : list bytes :=
  [bline "total_frames 10"; bline "Append frame 0"].

(** An output path with a space in it. *)
Definition out_spaced_path : list bytes :=
  [bline "total_frames 10"; bline "output_file /tmp/my out.mp4"].

End Tasks.

(* ===================================================================== *)
(** * Readings of lines and traces                                         *)
(* ===================================================================== *)

Module Readings.
Import Py Tasks.

(** The test of line 45 on one line of the file. *)
Definition is_marker (line : str) : bool := str_eqb (strip line) (lit "MOTION").

(** The test [line.strip()] of line 43. *)
Definition nonblank (line : str) : bool := str_truthy (strip line).

(** The number of lines that line 43 counts. *)
Definition count_nonblank (lines : list str) : Z :=
  Z.of_nat (List.length (filter nonblank lines)).

(** A line of the renderer that decodes and carries none of the three
    prefixes. *)
Definition unrecognized (raw : bytes) : bool :=
  match decode raw with
  | Ret text =>
      negb (startswith (lit "total_frames ") (strip text))
      && negb (startswith (lit "Append frame ") (strip text))
      && negb (startswith (lit "output_file") (strip text))
  | Raise _ => false
  end.

(** The form of an upload (lines 104-106). *)
Definition upload_files (name : str) : dict (str * file) :=
  [(lit "file", (basename name, {| file_name := name |}))].

Definition upload_url (api : str) : str := api ++ lit "/upload_video".

(** The update that publishes a pair of values. *)
Definition publish (p : progress) : event := UpdateState RENDERING (Some p).

(** The POST requests of a trace. *)
Definition is_post (ev : event) : bool :=
  match ev with
  | HttpPost _ _ _ => true
  | _ => false
  end.

Definition count_posts (trace : list event) : nat :=
  List.length (filter is_post trace).

(** A renderer that cannot be started. *)
Definition world_without_blender (bvh_file : bytes) : World := {|
  requests_get _ _ := Ret bvh_file;
  requests_post _ _ _ := Ret (lit "uploaded");
  tmp_name := lit "/tmp/tmpq1w2e3.bhv";
  popen _ := Raise OSError;
  open_error _ := None
|}.

(** An API server that cannot be reached. *)
Definition world_offline : World := {|
  requests_get _ _ := Raise RequestException;
  requests_post _ _ _ := Raise RequestException;
  tmp_name := lit "/tmp/tmpq1w2e3.bhv";
  popen _ := Raise OSError;
  open_error _ := None
|}.

(** A renderer that names an output file which is not there, and an API
    server that refuses the upload. *)
Definition world_upload (missing : bool) (out : list bytes) : World := {|
  requests_get _ _ := Ret three_rows_exact;
  requests_post _ _ _ := Raise RequestException;
  tmp_name := lit "/tmp/tmpq1w2e3.bhv";
  popen _ := Ret {| child_stdout := out; child_stderr := []; child_status := 0 |};
  open_error _ := if missing then Some OSError else None
|}.

(** An environment without the API token. *)
Definition environ_without_token : Environ :=
  fun key =>
    if String.eqb key "SYSTEM_TOKEN" then None else sample_environ "-1" "24" key.

(** Lines of the renderer's own log. *)
Definition out_log_only : list bytes :=
  [bline "Fra:1 Mem:21.00M | Time:00:00.04 | Rendering"; bline "";
   bline "Saved: /tmp/0001.png"].

End Readings.

(* ===================================================================== *)
(** * The built-in operations on sample values                             *)
(* ===================================================================== *)

Module PyFacts.
Import Py.

Example split_keeps_empty_fields :
  split SPACE (lit "a  b") = [lit "a"; lit ""; lit "b"].
Proof. reflexivity. Qed.

Example split_of_empty : split LF (lit "") = [lit ""].
Proof. reflexivity. Qed.

Example strip_both_ends :
  strip (9 :: lit "  MOTION " ++ [13; 10]) = lit "MOTION".
Proof. reflexivity. Qed.

Example strip_blank : str_truthy (strip (lit "   " ++ [13])) = false.
Proof. reflexivity. Qed.

Example basename_of_path : basename (lit "/tmp/out.mp4") = lit "out.mp4".
Proof. reflexivity. Qed.

Example basename_without_slash : basename (lit "out.mp4") = lit "out.mp4".
Proof. reflexivity. Qed.

Example str_of_negative : str_of_int (-120) = lit "-120".
Proof. reflexivity. Qed.

Example str_of_zero : str_of_int 0 = lit "0".
Proof. reflexivity. Qed.

Example decode_two_byte_sequence : decode ["195"%byte; "169"%byte] = Ret [233].
Proof. reflexivity. Qed.

Example decode_rejects_lone_continuation :
  decode ["128"%byte] = Raise UnicodeDecodeError.
Proof. reflexivity. Qed.

Example decode_rejects_overlong :
  decode ["192"%byte; "175"%byte] = Raise UnicodeDecodeError.
Proof. reflexivity. Qed.

Example int_of_float_truncates :
  int_of_float 10.75%float = Ret 10 /\ int_of_float (-3.5)%float = Ret (-3).
Proof. split; vm_compute; reflexivity. Qed.

Example int_of_float_infinity : int_of_float infinity = Raise OverflowError.
Proof. vm_compute. reflexivity. Qed.

Example truediv_by_zero : truediv 1%float 0%float = Raise ZeroDivisionError.
Proof. vm_compute. reflexivity. Qed.

Example nan_differs_from_itself : float_ne nan nan = true.
Proof. vm_compute. reflexivity. Qed.

End PyFacts.

(* ===================================================================== *)
(** * Properties of the validator                                          *)
(* ===================================================================== *)

Module ValidatorFacts.
Import Py Tasks.

Lemma str_eqb_eq (s t : str) : str_eqb s t = true <-> s = t.
Proof.
  revert t; induction s as [|x s IH]; intros [|y t]; simpl; split;
    try congruence; try reflexivity.
  - intros H. apply andb_true_iff in H as [Hx Hs].
    apply Z.eqb_eq in Hx. apply IH in Hs. congruence.
  - intros H. injection H as -> ->. rewrite Z.eqb_refl. simpl.
    apply IH. reflexivity.
Qed.

(** An unarmed counter stays unarmed as long as no line is the marker. *)
Lemma fold_count_unarmed (lines : list str) :
  forallb (fun line => negb (str_eqb (strip line) (lit "MOTION"))) lines = true ->
  fold_left count_step lines None = None.
Proof.
  induction lines as [|l lines IH]; simpl; intros H; [reflexivity|].
  apply andb_true_iff in H as [Hl Hrest].
  unfold count_step at 2.
  apply negb_true_iff in Hl. rewrite Hl. apply IH, Hrest.
Qed.

Lemma count_rows_unarmed (file_content : str) :
  no_motion_line file_content = true -> count_rows file_content = None.
Proof. apply fold_count_unarmed. Qed.

Lemma ne_opt_int_false (v : option Z) (n : Z) :
  ne_opt_int v n = false <-> v = Some n.
Proof.
  destruct v as [m|]; simpl; split; try discriminate.
  - intros H. apply negb_false_iff, Z.eqb_eq in H. congruence.
  - intros H. injection H as ->. rewrite Z.eqb_refl. reflexivity.
Qed.

Lemma ne_opt_int_true (v : option Z) (n : Z) :
  ne_opt_int v n = true <-> v <> Some n.
Proof.
  rewrite <- ne_opt_int_false. destruct (ne_opt_int v n); split; congruence.
Qed.

Section Checks.
Context {B : Builtins} {P : BvhPackage}.
Variable environ : Environ.

Lemma limits_inv (max_frames : Z) (required : float) :
  limits environ = Ret (max_frames, required) ->
  exists v1 v2 fps,
    getenv environ "MAX_NUMBER_FRAMES" = Ret v1 /\
    int_of_str v1 = Ret max_frames /\
    getenv environ "RENDER_FPS" = Ret v2 /\
    float_of_str v2 = Ret fps /\
    truediv 1%float fps = Ret required.
Proof.
  unfold limits. intros H.
  destruct (getenv environ "MAX_NUMBER_FRAMES") as [v1|] eqn:E1; [|discriminate].
  simpl in H.
  destruct (int_of_str v1) as [m|] eqn:E2; [|discriminate].
  simpl in H.
  destruct (getenv environ "RENDER_FPS") as [v2|] eqn:E3; [|discriminate].
  simpl in H.
  destruct (float_of_str v2) as [fps|] eqn:E4; [|discriminate].
  simpl in H.
  destruct (truediv 1 fps) as [ft|] eqn:E5; [|discriminate].
  simpl in H. injection H as -> ->.
  exists v1, v2, fps. repeat split; assumption.
Qed.

Lemma validate_reads_limits (bvh_file : bytes) (max_frames : Z) (required : float) :
  limits environ = Ret (max_frames, required) ->
  validate_bvh_file environ bvh_file =
  bind (builtin (decode bvh_file)) (fun file_content =>
  bind (builtin (Bvh file_content)) (fun mocap =>
  bind (builtin (nframes mocap)) (fun n =>
    checks max_frames required (count_rows file_content) mocap n))).
Proof.
  intros H. apply limits_inv in H as (v1 & v2 & fps & E1 & E2 & E3 & E4 & E5).
  unfold validate_bvh_file. rewrite E1. simpl. rewrite E2. simpl.
  rewrite E3. simpl. rewrite E4. simpl. rewrite E5. simpl. reflexivity.
Qed.

Lemma validate_checks (bvh_file : bytes) (max_frames : Z) (required : float)
    (file_content : str) (mocap : Mocap) (n : Z) :
  limits environ = Ret (max_frames, required) ->
  decode bvh_file = Ret file_content ->
  Bvh file_content = Ret mocap ->
  nframes mocap = Ret n ->
  validate_bvh_file environ bvh_file =
  checks max_frames required (count_rows file_content) mocap n.
Proof.
  intros HL HD HB HN. rewrite (validate_reads_limits _ _ _ HL).
  rewrite HD. simpl. rewrite HB. simpl. rewrite HN. reflexivity.
Qed.

(** C1 (amended): a file that decodes, whose recounted rows equal the
    declared frame count, whose declared frame time equals the required
    [1/frameRate] exactly, and whose declared frame count does not exceed the
    configured limit (or the limit is the sentinel -1), passes validation. *)
Theorem validate_ok (bvh_file : bytes) (max_frames : Z) (required : float)
    (file_content : str) (mocap : Mocap) (n : Z) (t : float) :
  limits environ = Ret (max_frames, required) ->
  decode bvh_file = Ret file_content ->
  Bvh file_content = Ret mocap ->
  nframes mocap = Ret n ->
  frame_time mocap = Ret t ->
  count_rows file_content = Some n ->
  max_frames = -1 \/ n <= max_frames ->
  PrimFloat.eqb t required = true ->
  validate_bvh_file environ bvh_file = Ret tt.
Proof.
  intros HL HD HB HN HT HC HM HE.
  rewrite (validate_checks _ _ _ _ _ _ HL HD HB HN). unfold checks.
  apply ne_opt_int_false in HC. rewrite HC.
  replace (negb (max_frames =? -1) && (n >? max_frames)) with false.
  - rewrite HT. simpl. unfold float_ne. rewrite HE. reflexivity.
  - symmetry. destruct HM as [-> | Hle]; [reflexivity|].
    apply andb_false_iff. right. rewrite Z.gtb_ltb. apply Z.ltb_ge, Hle.
Qed.

(** C7: when the recounted rows differ from the declared frame count (an
    unarmed counter differs from every count), validation raises the
    frame-count-mismatch failure, whose message prints the recounted value
    and the declared one, whatever the limit and the frame time are. *)
Theorem validate_rows_mismatch (bvh_file : bytes) (max_frames : Z) (required : float)
    (file_content : str) (mocap : Mocap) (n : Z) :
  limits environ = Ret (max_frames, required) ->
  decode bvh_file = Ret file_content ->
  Bvh file_content = Ret mocap ->
  nframes mocap = Ret n ->
  count_rows file_content <> Some n ->
  validate_bvh_file environ bvh_file =
    Raise (TaskFailure
      [Lit (lit "The number of rows with motion data ("
            ++ str_of_opt_int (count_rows file_content)
            ++ lit ") does not match the Frames field ("
            ++ str_of_int n ++ lit ")")]).
Proof.
  intros HL HD HB HN HC.
  rewrite (validate_checks _ _ _ _ _ _ HL HD HB HN). unfold checks.
  apply ne_opt_int_true in HC. rewrite HC. reflexivity.
Qed.

Lemma rows_not_too_many (c : option Z) (n n' m : Z) :
  rows_message c n <> too_many_message n' m.
Proof. unfold rows_message, too_many_message, lit. simpl. intros H. discriminate H. Qed.

(** C8 (amended): with a limit other than -1, a file whose recounted rows
    equal a declared frame count above the limit is refused with the
    too-many-frames failure naming the count and the limit; with the limit
    -1 validation never ends in a too-many-frames failure. *)
Theorem validate_frame_limit (max_frames : Z) (required : float) :
  limits environ = Ret (max_frames, required) ->
  (forall bvh_file file_content mocap n,
      decode bvh_file = Ret file_content ->
      Bvh file_content = Ret mocap ->
      nframes mocap = Ret n ->
      count_rows file_content = Some n ->
      max_frames <> -1 -> max_frames < n ->
      validate_bvh_file environ bvh_file =
        Raise (TaskFailure
          [Lit (lit "The supplied number of frames (" ++ str_of_int n
                ++ lit ") is bigger than " ++ str_of_int max_frames)]))
  /\ (max_frames = -1 ->
      forall bvh_file n m,
        validate_bvh_file environ bvh_file
          <> Raise (TaskFailure (too_many_message n m))).
Proof.
  intros HL. split.
  - intros bvh_file file_content mocap n HD HB HN HC Hfin Hgt.
    rewrite (validate_checks _ _ _ _ _ _ HL HD HB HN). unfold checks.
    apply ne_opt_int_false in HC. rewrite HC.
    apply Z.eqb_neq in Hfin. rewrite Hfin.
    apply Z.gtb_lt in Hgt. rewrite Hgt. reflexivity.
  - intros -> bvh_file n m. rewrite (validate_reads_limits _ _ _ HL).
    destruct (decode bvh_file) as [content|]; simpl; [|discriminate].
    destruct (Bvh content) as [mocap|]; simpl; [|discriminate].
    destruct (nframes mocap) as [k|]; simpl; [|discriminate].
    unfold checks. destruct (ne_opt_int (count_rows content) k).
    + intros H. apply (rows_not_too_many (count_rows content) k n m). congruence.
    + simpl. destruct (frame_time mocap) as [t|]; simpl; [|discriminate].
      destruct (float_ne t required); discriminate.
Qed.

(** C6 (amended): for a file that decodes and has no MOTION line, the counter
    stays [None]: when the reader yields a declared frame count, validation
    raises the frame-count-mismatch failure (printing None); when the reader
    raises, constructing the document or reading its frame count, that
    exception leaves the validator as it is. *)
Theorem validate_without_marker (bvh_file : bytes) (max_frames : Z)
    (required : float) (file_content : str) :
  limits environ = Ret (max_frames, required) ->
  decode bvh_file = Ret file_content ->
  no_motion_line file_content = true ->
  (forall mocap n,
      Bvh file_content = Ret mocap -> nframes mocap = Ret n ->
      validate_bvh_file environ bvh_file =
        Raise (TaskFailure (rows_message None n)))
  /\ (forall e,
      Bvh file_content = Raise e ->
      validate_bvh_file environ bvh_file = Raise (Builtin e))
  /\ (forall mocap e,
      Bvh file_content = Ret mocap -> nframes mocap = Raise e ->
      validate_bvh_file environ bvh_file = Raise (Builtin e)).
Proof.
  intros HL HD HM. rewrite (validate_reads_limits _ _ _ HL), HD. simpl.
  apply count_rows_unarmed in HM. repeat split.
  - intros mocap n HB HN. rewrite HB. simpl. rewrite HN. simpl.
    unfold checks. rewrite HM. reflexivity.
  - intros e HB. rewrite HB. reflexivity.
  - intros mocap e HB HN. rewrite HB. simpl. rewrite HN. reflexivity.
Qed.

End Checks.

(** ** The end-to-end scenarios of the validator *)

Lemma three_rows_decode :
  decode three_rows = Ret (lit (motion_text "3" "0.04166667" rows3)).
Proof. vm_compute. reflexivity. Qed.

Lemma three_rows_count :
  count_rows (lit (motion_text "3" "0.04166667" rows3)) = Some 3.
Proof. vm_compute. reflexivity. Qed.

(** C5 (amended): at 24 frames per second the file of the scenario
    ([Frames: 3], [Frame Time: 0.04166667], three rows) gets through the count
    and the limit checks and is refused by the frame-time check: the double
    nearest to 0.04166667 is not the double 1.0/24.0, and the comparison is
    exact. *)
Theorem scenario_24fps {B : Builtins} {P : BvhPackage} (environ : Environ)
    (max_frames : Z) (mocap : Mocap) :
  limits environ = Ret (max_frames, ft_24fps) ->
  max_frames = -1 \/ 3 <= max_frames ->
  Bvh (lit (motion_text "3" "0.04166667" rows3)) = Ret mocap ->
  nframes mocap = Ret 3 ->
  frame_time mocap = Ret ft_0_04166667 ->
  validate_bvh_file environ three_rows =
    Raise (TaskFailure (frame_time_message ft_0_04166667 ft_24fps)).
Proof.
  intros HL HM HB HN HT.
  rewrite (validate_checks _ _ _ _ _ _ _ HL three_rows_decode HB HN).
  unfold checks. rewrite three_rows_count. simpl ne_opt_int. cbv iota.
  replace (negb (max_frames =? -1) && (3 >? max_frames)) with false.
  - rewrite HT. reflexivity.
  - symmetry. destruct HM as [-> | Hle]; [reflexivity|].
    apply andb_false_iff. right. rewrite Z.gtb_ltb. apply Z.ltb_ge, Hle.
Qed.

Lemma scenario_24fps_witness :
  @validate_bvh_file numeral_builtins (header_reader 3 ft_0_04166667)
    (sample_environ "-1" "24") three_rows =
  Raise (TaskFailure (frame_time_message ft_0_04166667 ft_24fps)).
Proof.
  apply (@scenario_24fps numeral_builtins (header_reader 3 ft_0_04166667)
           (sample_environ "-1" "24") (-1) tt).
  - vm_compute. reflexivity.
  - left. reflexivity.
  - reflexivity.
  - reflexivity.
  - reflexivity.
Defined.

(** The claim of the scenario fails: the configuration is 24 frames per
    second, the three rows are recounted, the reader reports the header, and
    the validator raises. *)
Lemma scenario_24fps_refused :
  @limits numeral_builtins (sample_environ "-1" "24") = Ret (-1, ft_24fps)
  /\ decode three_rows = Ret (lit (motion_text "3" "0.04166667" rows3))
  /\ count_rows (lit (motion_text "3" "0.04166667" rows3)) = Some 3
  /\ PrimFloat.eqb ft_0_04166667 ft_24fps = false
  /\ @validate_bvh_file numeral_builtins (header_reader 3 ft_0_04166667)
       (sample_environ "-1" "24") three_rows
     = Raise (TaskFailure (frame_time_message ft_0_04166667 ft_24fps)).
Proof. vm_compute. repeat split. Qed.

(** With the frame time written with all the digits of 1.0/24.0 the same file
    passes. *)
Lemma scenario_24fps_exact :
  @validate_bvh_file numeral_builtins (header_reader 3 ft_24fps)
    (sample_environ "-1" "24") three_rows_exact = Ret tt.
Proof. vm_compute. reflexivity. Qed.

Lemma validate_ok_witness :
  @validate_bvh_file numeral_builtins (header_reader 3 ft_24fps)
    (sample_environ "3" "24") three_rows_exact = Ret tt.
Proof.
  eapply (@validate_ok numeral_builtins (header_reader 3 ft_24fps)
            (sample_environ "3" "24") three_rows_exact 3 ft_24fps).
  - vm_compute. reflexivity.
  - vm_compute. reflexivity.
  - reflexivity.
  - reflexivity.
  - reflexivity.
  - vm_compute. reflexivity.
  - right. lia.
  - vm_compute. reflexivity.
Defined.

(** The premises of C1 hold and validation fails: three declared and
    recounted frames, the exact frame time, and a limit of two frames. *)
Lemma validate_ok_over_limit :
  (exists file_content,
      decode three_rows_exact = Ret file_content
      /\ count_rows file_content = Some 3)
  /\ @limits numeral_builtins (sample_environ "2" "24") = Ret (2, ft_24fps)
  /\ PrimFloat.eqb ft_24fps ft_24fps = true
  /\ @validate_bvh_file numeral_builtins (header_reader 3 ft_24fps)
       (sample_environ "2" "24") three_rows_exact
     = Raise (TaskFailure (too_many_message 3 2)).
Proof.
  split; [eexists; split; vm_compute; reflexivity|].
  vm_compute. repeat split.
Qed.

Lemma validate_rows_mismatch_witness :
  @validate_bvh_file numeral_builtins (header_reader 3 ft_24fps)
    (sample_environ "-1" "24") two_rows_exact =
  Raise (TaskFailure
    [Lit (lit "The number of rows with motion data (2) does not match the Frames field (3)")]).
Proof.
  refine (eq_trans
    (@validate_rows_mismatch numeral_builtins (header_reader 3 ft_24fps)
       (sample_environ "-1" "24") two_rows_exact (-1) ft_24fps
       (lit (motion_text "3" "0.041666666666666664" rows2)) tt 3 _ _ _ _ _) _).
  - vm_compute. reflexivity.
  - vm_compute. reflexivity.
  - reflexivity.
  - reflexivity.
  - vm_compute. discriminate.
  - vm_compute. reflexivity.
Defined.

Lemma validate_frame_limit_witness :
  @validate_bvh_file numeral_builtins (header_reader 3 ft_24fps)
    (sample_environ "2" "24") three_rows_exact =
  Raise (TaskFailure
    [Lit (lit "The supplied number of frames (3) is bigger than 2")]).
Proof.
  refine (eq_trans
    (proj1 (@validate_frame_limit numeral_builtins (header_reader 3 ft_24fps)
              (sample_environ "2" "24") 2 ft_24fps _)
       three_rows_exact (lit (motion_text "3" "0.041666666666666664" rows3))
       tt 3 _ _ _ _ _ _) _).
  - vm_compute. reflexivity.
  - vm_compute. reflexivity.
  - reflexivity.
  - reflexivity.
  - vm_compute. reflexivity.
  - discriminate.
  - reflexivity.
  - vm_compute. reflexivity.
Defined.

(** The declared count (3) exceeds the limit (2) and the failure is not the
    too-many-frames one: the rows (2) are compared first. *)
Lemma validate_frame_limit_after_rows :
  @limits numeral_builtins (sample_environ "2" "24") = Ret (2, ft_24fps)
  /\ @nframes (header_reader 3 ft_24fps) tt = Ret 3
  /\ @validate_bvh_file numeral_builtins (header_reader 3 ft_24fps)
       (sample_environ "2" "24") two_rows_exact
     = Raise (TaskFailure (rows_message (Some 2) 3)).
Proof. vm_compute. repeat split. Qed.

Lemma validate_without_marker_witness :
  @validate_bvh_file numeral_builtins (frames_only_reader 3)
    (sample_environ "-1" "24") frames_line_only =
  Raise (TaskFailure
    [Lit (lit "The number of rows with motion data (None) does not match the Frames field (3)")]).
Proof.
  refine (eq_trans
    (proj1 (@validate_without_marker numeral_builtins
              (frames_only_reader 3) (sample_environ "-1" "24")
              frames_line_only (-1) ft_24fps (lit ("Frames: 3" ++ newline))
              _ _ _) tt 3 _ _) _).
  - vm_compute. reflexivity.
  - vm_compute. reflexivity.
  - vm_compute. reflexivity.
  - reflexivity.
  - reflexivity.
  - vm_compute. reflexivity.
Defined.

(** An empty file has no MOTION line; the reader finds no frame count and its
    [LookupError] is what the validator raises. *)
Lemma validate_without_marker_untyped :
  decode [] = Ret []
  /\ no_motion_line [] = true
  /\ @nframes headerless_reader tt = Raise LookupError
  /\ @validate_bvh_file numeral_builtins headerless_reader
       (sample_environ "-1" "24") []
     = Raise (Builtin LookupError).
Proof. vm_compute. repeat split. Qed.

End ValidatorFacts.

(* ===================================================================== *)
(** * Properties of the render task                                        *)
(* ===================================================================== *)

Module RenderFacts.
Import Py Tasks.

Lemma tbind_tret {A C} (a : A) (k : A -> task C) : tbind (tret a) k = k a.
Proof. unfold tbind, tret. simpl. destruct (k a). reflexivity. Qed.

Lemma tbind_lift_ret {A C} (a : A) (k : A -> task C) : tbind (lift (Ret a)) k = k a.
Proof. apply tbind_tret. Qed.

Lemma tbind_lift_raise {A C} (e : exn) (k : A -> task C) :
  tbind (lift (Raise e)) k = ([], Raise e).
Proof. reflexivity. Qed.

Lemma tbind_emit {C} (ev : event) (k : unit -> task C) :
  tbind (emit ev) k = (ev :: fst (k tt), snd (k tt)).
Proof. reflexivity. Qed.

Lemma tbind_assoc {A C D} (m : task A) (k : A -> task C) (h : C -> task D) :
  tbind (tbind m k) h = tbind m (fun a => tbind (k a) h).
Proof.
  unfold tbind. destruct m as [evs [a|e]]; simpl; [|reflexivity].
  destruct (k a) as [evs' [c|e]]; simpl; [|reflexivity].
  rewrite app_assoc. reflexivity.
Qed.

Section Loop.
Context {B : Builtins} {P : BvhPackage}.
Variable environ : Environ.
Variable w : World.
Variable HEADERS : dict str.
Variable API_SERVER : str.

(** The loop over a sequence of lines that starts with lines it gets
    through. *)
Lemma for_stdout_app (pre rest : list bytes) (total cur total' cur' : option Z)
    (evs : list event) :
  for_stdout w HEADERS API_SERVER pre total cur
    = (evs, Ret (Exhausted total' cur')) ->
  for_stdout w HEADERS API_SERVER (pre ++ rest) total cur =
    (evs ++ fst (for_stdout w HEADERS API_SERVER rest total' cur'),
     snd (for_stdout w HEADERS API_SERVER rest total' cur')).
Proof.
  revert total cur evs.
  induction pre as [|raw pre IH]; intros total cur evs H; simpl in *.
  - injection H as <- <- <-. simpl.
    destruct (for_stdout w HEADERS API_SERVER rest total cur); reflexivity.
  - unfold tbind in *.
    destruct (loop_body w HEADERS API_SERVER raw total cur) as [e1 [[t1 c1|v]|x]];
      simpl in *; try discriminate.
    destruct (for_stdout w HEADERS API_SERVER pre t1 c1) as [e2 r2] eqn:E2.
    simpl in *.
    injection H as <- ->.
    rewrite (IH _ _ _ E2). simpl. rewrite app_assoc. reflexivity.
Qed.

(** The chain of tests leaves to the next line without an event. *)
Lemma dispatch_next_silent (line : str) (total cur total' cur' : option Z)
    (evs : list event) :
  dispatch w HEADERS API_SERVER line total cur = (evs, Ret (Next total' cur')) ->
  evs = [].
Proof.
  unfold dispatch, open_rb, tbind, lift, tret, emit.
  destruct (startswith (lit "total_frames ") line).
  - destruct (split SPACE line) as [|a [|tok [|? ?]]]; simpl; try discriminate.
    destruct (float_of_str tok) as [x|]; simpl; [|discriminate].
    destruct (int_of_float x); simpl; [|discriminate]. congruence.
  - destruct (startswith (lit "Append frame ") line).
    + destruct (int_of_str _); simpl; [|discriminate]. congruence.
    + destruct (startswith (lit "output_file") line); [|simpl; congruence].
      destruct (split SPACE line) as [|a [|name [|? ?]]]; simpl; try discriminate.
      destruct (open_error w name); simpl; [discriminate|].
      destruct (requests_post w _ _ _); simpl; discriminate.
Qed.

(** The events of the chain of tests are never updates. *)
Lemma dispatch_no_update (line : str) (total cur : option Z) :
  rendering_updates (fst (dispatch w HEADERS API_SERVER line total cur)) = [].
Proof.
  unfold dispatch, open_rb, tbind, lift, tret, emit.
  destruct (startswith (lit "total_frames ") line).
  - destruct (split SPACE line) as [|a [|tok [|? ?]]]; simpl; try reflexivity.
    destruct (float_of_str tok) as [x|]; simpl; [|reflexivity].
    destruct (int_of_float x); reflexivity.
  - destruct (startswith (lit "Append frame ") line).
    + destruct (int_of_str _); reflexivity.
    + destruct (startswith (lit "output_file") line); [|reflexivity].
      destruct (split SPACE line) as [|a [|name [|? ?]]]; simpl; try reflexivity.
      destruct (open_error w name); simpl; [reflexivity|].
      destruct (requests_post w _ _ _); reflexivity.
Qed.

Lemma report_due (total cur : option Z) :
  rendering_updates (fst (report total cur)) = due (total, cur).
Proof.
  unfold report, due. destruct total as [t|], cur as [c|]; try reflexivity.
  simpl. destruct (negb (t =? 0) && negb (c =? 0)); reflexivity.
Qed.

Lemma rendering_updates_app (l1 l2 : list event) :
  rendering_updates (l1 ++ l2) = rendering_updates l1 ++ rendering_updates l2.
Proof. apply flat_map_app. Qed.

(** One turn of the loop, from what the chain of tests does. *)
Lemma loop_body_decode_error (raw : bytes) (total cur : option Z) (e : builtin_exn) :
  decode raw = Raise e ->
  loop_body w HEADERS API_SERVER raw total cur = ([], Raise (Builtin e)).
Proof. intros H. unfold loop_body. rewrite H. reflexivity. Qed.

Lemma loop_body_dispatch (raw : bytes) (text : str) (total cur : option Z) :
  decode raw = Ret text ->
  loop_body w HEADERS API_SERVER raw total cur =
    match dispatch w HEADERS API_SERVER (strip text) total cur with
    | (evs, Ret (Next total' cur')) =>
        (evs ++ fst (report total' cur'), Ret (Next total' cur'))
    | (evs, Ret (Return v)) => (evs, Ret (Return v))
    | (evs, Raise e) => (evs, Raise e)
    end.
Proof.
  intros H. unfold loop_body. rewrite H. simpl. rewrite tbind_lift_ret.
  unfold tbind.
  destruct (dispatch w HEADERS API_SERVER (strip text) total cur)
    as [evs [[t' c'|v]|e]]; simpl.
  - destruct (report t' c') as [evr [[]|x]] eqn:E; simpl.
    + rewrite app_nil_r. reflexivity.
    + exfalso. unfold report in E.
      destruct t', c'; try discriminate.
      destruct (truthy _ && truthy _); discriminate.
  - rewrite app_nil_r. reflexivity.
  - reflexivity.
Qed.

(** The updates of the loop are the updates due to the successive values of
    the two variables. *)
Lemma for_stdout_updates (lines : list bytes) (total cur : option Z) :
  rendering_updates (fst (for_stdout w HEADERS API_SERVER lines total cur)) =
  flat_map due (loop_states w HEADERS API_SERVER lines total cur).
Proof.
  revert total cur. induction lines as [|raw rest IH]; intros total cur.
  - reflexivity.
  - simpl. destruct (decode raw) as [text|e] eqn:D.
    + rewrite (loop_body_dispatch _ _ _ _ D).
      pose proof (dispatch_no_update (strip text) total cur) as NU.
      destruct (dispatch w HEADERS API_SERVER (strip text) total cur)
        as [evs [[t' c'|v]|x]]; simpl in *; unfold tbind; simpl.
      * rewrite !rendering_updates_app, NU, report_due, IH. reflexivity.
      * rewrite app_nil_r. exact NU.
      * exact NU.
    + rewrite (loop_body_decode_error _ _ _ _ D). reflexivity.
Qed.

(** The three prefixes exclude one another. *)
Lemma prefixes_exclusive (line : str) :
  (startswith (lit "Append frame ") line = true ->
   startswith (lit "total_frames ") line = false)
  /\ (startswith (lit "output_file") line = true ->
      startswith (lit "total_frames ") line = false
      /\ startswith (lit "Append frame ") line = false).
Proof.
  assert (HA : forall p ps l, startswith (p :: ps) l = true -> exists l', l = p :: l').
  { intros p ps [|c l'] H; [discriminate|]. cbn [startswith] in H.
    apply andb_true_iff in H as [H _]. apply Z.eqb_eq in H. subst. eauto. }
  split; intros H.
  - change (lit "Append frame ") with (65 :: lit "ppend frame ") in H.
    apply HA in H as [l' ->]. reflexivity.
  - change (lit "output_file") with (111 :: lit "utput_file") in H.
    apply HA in H as [l' ->]. split; reflexivity.
Qed.

(** The chain of tests on a well-formed output_file line. *)
Lemma dispatch_output_file (line x name body : str) (total cur : option Z) :
  startswith (lit "output_file") line = true ->
  split SPACE line = [x; name] ->
  open_error w name = None ->
  requests_post w (API_SERVER ++ lit "/upload_video")
    [(lit "file", (basename name, {| file_name := name |}))] HEADERS = Ret body ->
  dispatch w HEADERS API_SERVER line total cur =
    ([OpenFile name;
      HttpPost (API_SERVER ++ lit "/upload_video")
        [(lit "file", (basename name, {| file_name := name |}))] HEADERS],
     Ret (Return body)).
Proof.
  intros HS HSp HO HP.
  destruct (prefixes_exclusive line) as [_ HX]. destruct (HX HS) as [H1 H2].
  unfold dispatch. rewrite H1, H2, HS, HSp.
  unfold open_rb, tbind, emit, lift, tret. simpl. rewrite HO. simpl.
  rewrite HP. reflexivity.
Qed.

(** The chain of tests on a malformed line: an exception of the
    interpreter, and no event. *)
Lemma dispatch_malformed (line : str) (total cur : option Z) :
  malformed line ->
  exists e, dispatch w HEADERS API_SERVER line total cur = ([], Raise (Builtin e)).
Proof.
  intros [HS HL | a tok e HS HSp HF | e HS HI | HS HL]; unfold dispatch.
  - rewrite HS. exists ValueError.
    destruct (split SPACE line) as [|a [|tok [|? ?]]]; try reflexivity.
    exfalso. apply HL. reflexivity.
  - rewrite HS, HSp. exists e. rewrite HF. reflexivity.
  - destruct (prefixes_exclusive line) as [HX _]. rewrite (HX HS), HS.
    exists e. rewrite HI. reflexivity.
  - destruct (prefixes_exclusive line) as [_ HX]. destruct (HX HS) as [H1 H2].
    rewrite H1, H2, HS. exists ValueError.
    destruct (split SPACE line) as [|a [|tok [|? ?]]]; try reflexivity.
    exfalso. apply HL. reflexivity.
Qed.

(** Where the values of a turn come from: the line just read, or the turn
    before. *)
Lemma dispatch_next_values (line : str) (total cur total' cur' : option Z)
    (evs : list event) :
  dispatch w HEADERS API_SERVER line total cur = (evs, Ret (Next total' cur')) ->
  (startswith (lit "total_frames ") line = true /\ cur' = cur
   /\ exists a tok x n,
       split SPACE line = [a; tok] /\ float_of_str tok = Ret x
       /\ int_of_float x = Ret n /\ total' = Some n)
  \/ (startswith (lit "Append frame ") line = true /\ total' = total
      /\ exists n,
          int_of_str (last (split SPACE line) []) = Ret n /\ cur' = Some n)
  \/ (total' = total /\ cur' = cur).
Proof.
  unfold dispatch, open_rb, tbind, lift, tret, emit.
  destruct (startswith (lit "total_frames ") line) eqn:H1.
  - destruct (split SPACE line) as [|a [|tok [|? ?]]]; simpl; try discriminate.
    destruct (float_of_str tok) as [x|] eqn:HF; simpl; [|discriminate].
    destruct (int_of_float x) as [n|] eqn:HI; simpl; [|discriminate].
    intros H. injection H as _ <- <-. left.
    split; [reflexivity|]. split; [reflexivity|].
    exists a, tok, x, n. auto.
  - destruct (startswith (lit "Append frame ") line) eqn:H2.
    + destruct (int_of_str _) as [n|] eqn:HI; simpl; [|discriminate].
      intros H. injection H as _ <- <-. right. left.
      split; [reflexivity|]. split; [reflexivity|].
      exists n. auto.
    + destruct (startswith (lit "output_file") line).
      * destruct (split SPACE line) as [|a [|name [|? ?]]]; simpl; try discriminate.
        destruct (open_error w name); simpl; [discriminate|].
        destruct (requests_post w _ _ _); simpl; discriminate.
      * simpl. intros H. injection H as _ <- <-. right. right. split; reflexivity.
Qed.

End Loop.

Section Task.
Context {B : Builtins} {P : BvhPackage}.
Variable environ : Environ.
Variable w : World.

(** The task up to the validator, when the validator raises. *)
Lemma render_invalid (uri token api : str) (bvh_file : bytes) (e : exn) :
  getenv environ "SYSTEM_TOKEN" = Ret token ->
  getenv environ "API_SERVER" = Ret api ->
  requests_get w (api ++ uri) (headers_of token) = Ret bvh_file ->
  validate_bvh_file environ bvh_file = Raise e ->
  render environ w uri = (opening api uri token, Raise e).
Proof.
  intros HT HA HG HV. unfold render. rewrite HT, HA. simpl.
  rewrite !tbind_lift_ret, !tbind_emit.
  rewrite HG. simpl. rewrite HV. reflexivity.
Qed.

(** The task once the file is validated and the renderer started. *)
Lemma render_spawned (uri token api : str) (bvh_file : bytes) (child : Child) :
  getenv environ "SYSTEM_TOKEN" = Ret token ->
  getenv environ "API_SERVER" = Ret api ->
  requests_get w (api ++ uri) (headers_of token) = Ret bvh_file ->
  validate_bvh_file environ bvh_file = Ret tt ->
  popen w (blender_argv (tmp_name w)) = Ret child ->
  render environ w uri =
    (opening api uri token
       ++ TmpWrite (tmp_name w) bvh_file :: PopenCall (blender_argv (tmp_name w))
       :: fst (for_stdout w (headers_of token) api (child_stdout child) None None)
       ++ [TmpRemove (tmp_name w)],
     finish (Popen_init child)
       (snd (for_stdout w (headers_of token) api (child_stdout child) None None))).
Proof.
  intros HT HA HG HV HP. unfold render. rewrite HT, HA. simpl.
  rewrite !tbind_lift_ret, !tbind_emit.
  rewrite HG. simpl. rewrite HV, tbind_lift_ret.
  unfold with_tmpfile. rewrite !tbind_emit. rewrite HP. simpl.
  unfold tbind.
  destruct (for_stdout w (headers_of token) api (child_stdout child) None None)
    as [evs [[t c|text]|e]]; simpl.
  - destruct (decode (child_stderr child)); simpl; rewrite ?app_nil_r; reflexivity.
  - rewrite app_nil_r. reflexivity.
  - reflexivity.
Qed.

Lemma opening_no_popen (api uri token : str) (argv : list str) :
  ~ In (PopenCall argv) (opening api uri token).
Proof. simpl. intuition discriminate. Qed.

(** C2: the renderer is started only after the validator has returned
    normally on the fetched bytes; when the validator raises, the task ends
    with that exception after the fetch, and its trace has no start of a
    subprocess. *)
Theorem render_validates_first (uri : str) :
  (forall argv,
      In (PopenCall argv) (fst (render environ w uri)) ->
      exists token api bvh_file,
        getenv environ "SYSTEM_TOKEN" = Ret token
        /\ getenv environ "API_SERVER" = Ret api
        /\ requests_get w (api ++ uri) (headers_of token) = Ret bvh_file
        /\ validate_bvh_file environ bvh_file = Ret tt)
  /\ (forall token api bvh_file e,
      getenv environ "SYSTEM_TOKEN" = Ret token ->
      getenv environ "API_SERVER" = Ret api ->
      requests_get w (api ++ uri) (headers_of token) = Ret bvh_file ->
      validate_bvh_file environ bvh_file = Raise e ->
      render environ w uri = (opening api uri token, Raise e)
      /\ forall argv, ~ In (PopenCall argv) (fst (render environ w uri))).
Proof.
  split.
  - intros argv HIn.
    destruct (getenv environ "SYSTEM_TOKEN") as [token|x] eqn:HT.
    2:{ unfold render in HIn. rewrite HT in HIn. contradiction. }
    destruct (getenv environ "API_SERVER") as [api|x] eqn:HA.
    2:{ unfold render in HIn. rewrite HT, HA in HIn. contradiction. }
    destruct (requests_get w (api ++ uri) (headers_of token)) as [bvh_file|x] eqn:HG.
    2:{ unfold render in HIn. rewrite HT, HA in HIn. simpl in HIn.
        rewrite HG in HIn. simpl in HIn. intuition discriminate. }
    destruct (validate_bvh_file environ bvh_file) as [[]|e] eqn:HV.
    + exists token, api, bvh_file. auto.
    + rewrite (render_invalid _ _ _ _ _ HT HA HG HV) in HIn.
      apply opening_no_popen in HIn. contradiction.
  - intros token api bvh_file e HT HA HG HV.
    rewrite (render_invalid _ _ _ _ _ HT HA HG HV). split; [reflexivity|].
    intros argv. apply opening_no_popen.
Qed.

(** C3: what the task does when the output of the renderer ends without an
    output_file line. [returncode] is still [None] (nothing has waited for
    the process), [None != 0] holds, and the task raises [TaskFailure] with
    the text of the error stream, whatever status the renderer exits with. *)
Theorem render_stdout_closed (uri token api : str) (bvh_file : bytes)
    (child : Child) (evs : list event) (total cur : option Z) (text : str) :
  getenv environ "SYSTEM_TOKEN" = Ret token ->
  getenv environ "API_SERVER" = Ret api ->
  requests_get w (api ++ uri) (headers_of token) = Ret bvh_file ->
  validate_bvh_file environ bvh_file = Ret tt ->
  popen w (blender_argv (tmp_name w)) = Ret child ->
  for_stdout w (headers_of token) api (child_stdout child) None None
    = (evs, Ret (Exhausted total cur)) ->
  decode (child_stderr child) = Ret text ->
  returncode (Popen_init child) = None
  /\ snd (render environ w uri) = Raise (TaskFailure [Lit text]).
Proof.
  intros HT HA HG HV HP HL HD. split; [reflexivity|].
  rewrite (render_spawned _ _ _ _ _ HT HA HG HV HP), HL. simpl.
  rewrite HD. reflexivity.
Qed.

(** C4 (amended): the RENDERING updates of a render are, in order, one update
    for each line the loop gets through after which both variables are set
    and non-zero, carrying the values the variables have after that line;
    nothing is published for a line after which a variable is unset or
    zero. *)
Theorem render_progress (uri token api : str) (bvh_file : bytes) (child : Child) :
  getenv environ "SYSTEM_TOKEN" = Ret token ->
  getenv environ "API_SERVER" = Ret api ->
  requests_get w (api ++ uri) (headers_of token) = Ret bvh_file ->
  validate_bvh_file environ bvh_file = Ret tt ->
  popen w (blender_argv (tmp_name w)) = Ret child ->
  rendering_updates (fst (render environ w uri)) =
    flat_map due
      (loop_states w (headers_of token) api (child_stdout child) None None).
Proof.
  intros HT HA HG HV HP.
  rewrite (render_spawned _ _ _ _ _ HT HA HG HV HP).
  cbn [fst]. rewrite rendering_updates_app.
  change (rendering_updates (opening api uri token)) with (@nil progress).
  cbn [app]. unfold rendering_updates at 1. cbn [flat_map rendering_update app].
  fold (rendering_updates
          (fst (for_stdout w (headers_of token) api (child_stdout child) None None)
             ++ [TmpRemove (tmp_name w)])).
  rewrite rendering_updates_app, for_stdout_updates.
  cbn. apply app_nil_r.
Qed.

(** C9: at the first output_file line that the loop reaches (a line of two
    tokens), the task opens the named file, posts it under the field [file]
    with its base name and the headers of the fetch, and returns the body of
    the response; the lines after it play no part. *)
Theorem render_output_file (uri token api : str) (bvh_file : bytes)
    (child : Child) (pre rest : list bytes) (raw : bytes) (evs : list event)
    (total cur : option Z) (text x name body : str) :
  getenv environ "SYSTEM_TOKEN" = Ret token ->
  getenv environ "API_SERVER" = Ret api ->
  requests_get w (api ++ uri) (headers_of token) = Ret bvh_file ->
  validate_bvh_file environ bvh_file = Ret tt ->
  popen w (blender_argv (tmp_name w)) = Ret child ->
  child_stdout child = pre ++ raw :: rest ->
  for_stdout w (headers_of token) api pre None None
    = (evs, Ret (Exhausted total cur)) ->
  decode raw = Ret text ->
  startswith (lit "output_file") (strip text) = true ->
  split SPACE (strip text) = [x; name] ->
  open_error w name = None ->
  requests_post w (api ++ lit "/upload_video")
    [(lit "file", (basename name, {| file_name := name |}))]
    (headers_of token) = Ret body ->
  render environ w uri =
    (opening api uri token
       ++ TmpWrite (tmp_name w) bvh_file :: PopenCall (blender_argv (tmp_name w))
       :: evs
       ++ [OpenFile name;
           HttpPost (api ++ lit "/upload_video")
             [(lit "file", (basename name, {| file_name := name |}))]
             (headers_of token);
           TmpRemove (tmp_name w)],
     Ret (Some body)).
Proof.
  intros HT HA HG HV HP HS HL HD HW HSp HO HPost.
  rewrite (render_spawned _ _ _ _ _ HT HA HG HV HP), HS.
  rewrite (for_stdout_app _ _ _ _ _ _ _ _ _ _ HL).
  cbn [for_stdout]. rewrite (loop_body_dispatch _ _ _ _ _ _ _ HD).
  rewrite (dispatch_output_file _ _ _ _ _ _ _ _ _ HW HSp HO HPost).
  cbn. rewrite <- app_assoc. reflexivity.
Qed.

(** C10: when the loop reaches a line that carries a recognized prefix and a
    malformed payload, the task ends with an exception of the interpreter,
    not with [TaskFailure]. *)
Theorem render_malformed_line (uri token api : str) (bvh_file : bytes)
    (child : Child) (pre rest : list bytes) (raw : bytes) (evs : list event)
    (total cur : option Z) (text : str) :
  getenv environ "SYSTEM_TOKEN" = Ret token ->
  getenv environ "API_SERVER" = Ret api ->
  requests_get w (api ++ uri) (headers_of token) = Ret bvh_file ->
  validate_bvh_file environ bvh_file = Ret tt ->
  popen w (blender_argv (tmp_name w)) = Ret child ->
  child_stdout child = pre ++ raw :: rest ->
  for_stdout w (headers_of token) api pre None None
    = (evs, Ret (Exhausted total cur)) ->
  decode raw = Ret text ->
  malformed (strip text) ->
  exists e, snd (render environ w uri) = Raise (Builtin e).
Proof.
  intros HT HA HG HV HP HS HL HD HM.
  destruct (dispatch_malformed w (headers_of token) api _ total cur HM) as [e HE].
  exists e.
  rewrite (render_spawned _ _ _ _ _ HT HA HG HV HP), HS.
  rewrite (for_stdout_app _ _ _ _ _ _ _ _ _ _ HL).
  cbn [for_stdout]. rewrite (loop_body_dispatch _ _ _ _ _ _ _ HD), HE.
  reflexivity.
Qed.

End Task.

(** ** The task on sample runs *)

Lemma render_validates_first_witness :
  @render numeral_builtins (header_reader 3 ft_24fps) env24
    (sample_world two_rows_exact out_complete [] 0) uri42
  = (opening (lit "http://api") uri42 (lit "s3cret"),
     Raise (TaskFailure (rows_message (Some 2) 3)))
  /\ forall argv,
      ~ In (PopenCall argv)
          (fst (@render numeral_builtins (header_reader 3 ft_24fps) env24
                  (sample_world two_rows_exact out_complete [] 0) uri42)).
Proof.
  apply (proj2 (@render_validates_first numeral_builtins
                  (header_reader 3 ft_24fps) env24
                  (sample_world two_rows_exact out_complete [] 0) uri42)
           (lit "s3cret") (lit "http://api") two_rows_exact
           (TaskFailure (rows_message (Some 2) 3))).
  - reflexivity.
  - reflexivity.
  - reflexivity.
  - vm_compute. reflexivity.
Defined.

(** The renderer exits with status 0 and an empty error stream, and the task
    raises [TaskFailure] with an empty message. *)
Lemma render_stdout_closed_status_zero :
  child_status {| child_stdout := out_silent; child_stderr := []; child_status := 0 |} = 0
  /\ returncode
       (Popen_init {| child_stdout := out_silent; child_stderr := []; child_status := 0 |})
     = None
  /\ snd (@render numeral_builtins (header_reader 3 ft_24fps) env24
            (sample_world three_rows_exact out_silent [] 0) uri42)
     = Raise (TaskFailure [Lit []]).
Proof.
  split; [reflexivity|].
  eapply (@render_stdout_closed numeral_builtins (header_reader 3 ft_24fps) env24
            (sample_world three_rows_exact out_silent [] 0) uri42
            (lit "s3cret") (lit "http://api") three_rows_exact
            {| child_stdout := out_silent; child_stderr := []; child_status := 0 |}).
  - reflexivity.
  - reflexivity.
  - reflexivity.
  - vm_compute. reflexivity.
  - reflexivity.
  - vm_compute. reflexivity.
  - reflexivity.
Defined.

Lemma render_progress_witness :
  rendering_updates
    (fst (@render numeral_builtins (header_reader 3 ft_24fps) env24
            (sample_world three_rows_exact out_complete [] 0) uri42))
  = [{| current := 1; total := 10 |}; {| current := 2; total := 10 |}].
Proof.
  refine (eq_trans
    (@render_progress numeral_builtins (header_reader 3 ft_24fps) env24
       (sample_world three_rows_exact out_complete [] 0) uri42
       (lit "s3cret") (lit "http://api") three_rows_exact
       {| child_stdout := out_complete; child_stderr := []; child_status := 0 |}
       _ _ _ _ _) _).
  - reflexivity.
  - reflexivity.
  - reflexivity.
  - vm_compute. reflexivity.
  - reflexivity.
  - vm_compute. reflexivity.
Defined.

(** After the second line both variables are set (10 and 0), and the render
    publishes no update. *)
Lemma render_progress_frame_zero :
  @loop_states numeral_builtins
    (sample_world three_rows_exact out_frame_zero [] 0)
    (headers_of (lit "s3cret")) (lit "http://api") out_frame_zero None None
  = [(Some 10, None); (Some 10, Some 0)]
  /\ rendering_updates
       (fst (@render numeral_builtins (header_reader 3 ft_24fps) env24
               (sample_world three_rows_exact out_frame_zero [] 0) uri42))
     = [].
Proof. vm_compute. split; reflexivity. Qed.

Lemma render_output_file_witness :
  @render numeral_builtins (header_reader 3 ft_24fps) env24
    (sample_world three_rows_exact out_complete [] 0) uri42
  = (opening (lit "http://api") uri42 (lit "s3cret")
       ++ [TmpWrite (lit "/tmp/tmpq1w2e3.bhv") three_rows_exact;
           PopenCall (blender_argv (lit "/tmp/tmpq1w2e3.bhv"));
           UpdateState RENDERING (Some {| current := 1; total := 10 |});
           UpdateState RENDERING (Some {| current := 2; total := 10 |});
           OpenFile (lit "/tmp/out.mp4");
           HttpPost (lit "http://api/upload_video")
             [(lit "file", (lit "out.mp4", {| file_name := lit "/tmp/out.mp4" |}))]
             (headers_of (lit "s3cret"));
           TmpRemove (lit "/tmp/tmpq1w2e3.bhv")],
     Ret (Some (lit "uploaded"))).
Proof.
  refine (eq_trans
    (@render_output_file numeral_builtins (header_reader 3 ft_24fps) env24
       (sample_world three_rows_exact out_complete [] 0) uri42
       (lit "s3cret") (lit "http://api") three_rows_exact
       {| child_stdout := out_complete; child_stderr := []; child_status := 0 |}
       [bline "total_frames 10"; bline "Append frame 1"; bline "Append frame 2"]
       [bline "Blender quit"] (bline "output_file /tmp/out.mp4")
       [UpdateState RENDERING (Some {| current := 1; total := 10 |});
        UpdateState RENDERING (Some {| current := 2; total := 10 |})]
       (Some 10) (Some 2) (lit "output_file /tmp/out.mp4" ++ [10])
       (lit "output_file") (lit "/tmp/out.mp4") (lit "uploaded")
       _ _ _ _ _ _ _ _ _ _ _ _) _).
  - reflexivity.
  - reflexivity.
  - reflexivity.
  - vm_compute. reflexivity.
  - reflexivity.
  - reflexivity.
  - vm_compute. reflexivity.
  - vm_compute. reflexivity.
  - vm_compute. reflexivity.
  - vm_compute. reflexivity.
  - reflexivity.
  - reflexivity.
  - vm_compute. reflexivity.
Defined.

Lemma render_malformed_line_witness :
  exists e,
    snd (@render numeral_builtins (header_reader 3 ft_24fps) env24
           (sample_world three_rows_exact out_spaced_path [] 0) uri42)
    = Raise (Builtin e).
Proof.
  apply (@render_malformed_line numeral_builtins (header_reader 3 ft_24fps) env24
           (sample_world three_rows_exact out_spaced_path [] 0) uri42
           (lit "s3cret") (lit "http://api") three_rows_exact
           {| child_stdout := out_spaced_path; child_stderr := []; child_status := 0 |}
           [bline "total_frames 10"] [] (bline "output_file /tmp/my out.mp4")
           [] (Some 10) None (lit "output_file /tmp/my out.mp4" ++ [10])).
  - reflexivity.
  - reflexivity.
  - reflexivity.
  - vm_compute. reflexivity.
  - reflexivity.
  - reflexivity.
  - vm_compute. reflexivity.
  - vm_compute. reflexivity.
  - apply output_file_tokens.
    + vm_compute. reflexivity.
    + vm_compute. discriminate.
Defined.

End RenderFacts.

(* ===================================================================== *)
(** * More on the validator                                                *)
(* ===================================================================== *)

Module ValidatorMore.
Import Py Tasks Readings.

(** ** The recount of lines 41-46 *)

Lemma split_nonempty (sep : Z) (s : str) : split sep s <> [].
Proof.
  destruct s as [|c s]; simpl; [discriminate|].
  destruct (c =? sep); [discriminate|].
  destruct (split sep s); discriminate.
Qed.

Lemma split_app (sep : Z) (s t : str) :
  split sep (s ++ sep :: t) = split sep s ++ split sep t.
Proof.
  induction s as [|c s IH]; simpl.
  - rewrite Z.eqb_refl. reflexivity.
  - destruct (c =? sep); [rewrite IH; reflexivity|].
    rewrite IH. destruct (split sep s) as [|x xs] eqn:E; [|reflexivity].
    exfalso. exact (split_nonempty _ _ E).
Qed.

Lemma count_step_blank (counter : option Z) (line : str) :
  nonblank line = false -> count_step counter line = counter.
Proof.
  unfold nonblank, count_step. intros H.
  destruct (strip line) as [|c l]; [|discriminate].
  destruct counter; reflexivity.
Qed.

Lemma count_step_marker (counter : option Z) (line : str) :
  is_marker line = true -> count_step counter line = Some (-2).
Proof. unfold is_marker, count_step. intros ->. reflexivity. Qed.

Lemma fold_count_armed (lines : list str) (c : Z) :
  forallb (fun l => negb (is_marker l)) lines = true ->
  fold_left count_step lines (Some c) = Some (c + count_nonblank lines).
Proof.
  unfold count_nonblank. revert c.
  induction lines as [|l lines IH]; intros c H.
  - simpl. f_equal. lia.
  - simpl in H. apply andb_true_iff in H as [Hl Hrest].
    apply negb_true_iff in Hl. cbn [fold_left filter].
    unfold count_step at 2. unfold is_marker in Hl. rewrite Hl.
    fold (nonblank l). destruct (nonblank l).
    + rewrite (IH _ Hrest). cbn [List.length]. f_equal. lia.
    + rewrite (IH _ Hrest). reflexivity.
Qed.

(** X1: the counter is set by the last MOTION line alone: whatever comes
    before it, the recount is the number of non-blank lines after it, less
    the two header lines. *)
Theorem count_rows_last_marker (file_content : str) (pre post : list str) (m : str) :
  split LF file_content = pre ++ m :: post ->
  is_marker m = true ->
  forallb (fun l => negb (is_marker l)) post = true ->
  count_rows file_content = Some (count_nonblank post - 2).
Proof.
  intros HS HM HP. unfold count_rows. rewrite HS, fold_left_app.
  cbn [fold_left]. rewrite (count_step_marker _ _ HM).
  rewrite (fold_count_armed _ _ HP). f_equal. lia.
Qed.

Lemma fold_count_blank (lines : list str) (counter : option Z) :
  forallb (fun l => negb (nonblank l)) lines = true ->
  fold_left count_step lines counter = counter.
Proof.
  revert counter. induction lines as [|l lines IH]; intros counter H.
  - reflexivity.
  - simpl in H. apply andb_true_iff in H as [Hl Hrest].
    apply negb_true_iff in Hl. cbn [fold_left].
    rewrite (count_step_blank _ _ Hl). apply IH, Hrest.
Qed.

(** X2: blank lines added after a line feed at the end of the file leave the
    recount as it is. *)
Theorem count_rows_trailing_blank (file_content padding : str) :
  forallb (fun l => negb (nonblank l)) (split LF padding) = true ->
  count_rows (file_content ++ LF :: padding) = count_rows file_content.
Proof.
  intros H. unfold count_rows. rewrite split_app, fold_left_app.
  apply fold_count_blank, H.
Qed.

Lemma count_rows_last_marker_witness :
  count_rows (lit (motion_text "3" "0.04166667" rows3)) = Some 3.
Proof.
  refine (eq_trans
    (count_rows_last_marker (lit (motion_text "3" "0.04166667" rows3))
       (map lit skeleton)
       (map lit ["Frames: 3"; "Frame Time: 0.04166667"; "0.0 0.0 0.0";
                 "0.0 1.0 0.0"; "0.0 2.0 0.0"; ""]%string)
       (lit "MOTION") _ _ _) _).
  - vm_compute. reflexivity.
  - reflexivity.
  - vm_compute. reflexivity.
  - vm_compute. reflexivity.
Defined.

Lemma count_rows_trailing_blank_witness :
  count_rows (lit (motion_text "3" "0.04166667" rows3) ++ LF :: 32 :: 13 :: LF :: [9])
  = count_rows (lit (motion_text "3" "0.04166667" rows3)).
Proof.
  apply (count_rows_trailing_blank (lit (motion_text "3" "0.04166667" rows3))
           (32 :: 13 :: LF :: [9])).
  vm_compute. reflexivity.
Defined.

(** ** The outcomes of the validator *)

Section Outcomes.
Context {B : Builtins} {P : BvhPackage}.
Variable environ : Environ.

(** X3: the configuration is read first: when a variable is missing, does
    not convert, or the frame rate is zero, every file, valid or not, gets
    that exception. *)
Theorem validate_configuration_first (e : exn) :
  limits environ = Raise e ->
  forall bvh_file, validate_bvh_file environ bvh_file = Raise e.
Proof.
  unfold limits, validate_bvh_file. intros H bvh_file.
  destruct (getenv environ "MAX_NUMBER_FRAMES") as [v1|x1]; simpl in *;
    [|congruence].
  destruct (int_of_str v1) as [m|x2]; simpl in *; [|congruence].
  destruct (getenv environ "RENDER_FPS") as [v2|x3]; simpl in *; [|congruence].
  destruct (float_of_str v2) as [fps|x4]; simpl in *; [|congruence].
  destruct (truediv 1 fps) as [ft|x5]; simpl in *; [discriminate|congruence].
Qed.

(** X4: bytes that are not UTF-8 are refused with [UnicodeDecodeError], not
    with [TaskFailure], whatever the reader would say. *)
Theorem validate_undecodable (bvh_file : bytes) (max_frames : Z) (required : float) :
  limits environ = Ret (max_frames, required) ->
  utf8_decode (map byteZ bvh_file) = None ->
  validate_bvh_file environ bvh_file = Raise (Builtin UnicodeDecodeError).
Proof.
  intros HL HD. rewrite (ValidatorFacts.validate_reads_limits _ _ _ _ HL).
  unfold decode. rewrite HD. reflexivity.
Qed.

(** X5: a file that gets through the count and the limit checks and whose
    declared frame time is not equal to the required one (a NaN never is) is
    refused with the frame-time failure, which carries both values. *)
Theorem validate_frame_time_mismatch (bvh_file : bytes) (max_frames : Z)
    (required : float) (file_content : str) (mocap : Mocap) (n : Z) (t : float) :
  limits environ = Ret (max_frames, required) ->
  decode bvh_file = Ret file_content ->
  Bvh file_content = Ret mocap ->
  nframes mocap = Ret n ->
  frame_time mocap = Ret t ->
  count_rows file_content = Some n ->
  max_frames = -1 \/ n <= max_frames ->
  PrimFloat.eqb t required = false ->
  validate_bvh_file environ bvh_file =
    Raise (TaskFailure
      [Lit (lit "The supplied frame time ("); FloatRepr t;
       Lit (lit ") differs from the required "); FloatRepr required]).
Proof.
  intros HL HD HB HN HT HC HM HE.
  rewrite (ValidatorFacts.validate_checks _ _ _ _ _ _ _ HL HD HB HN).
  unfold checks. apply ValidatorFacts.ne_opt_int_false in HC. rewrite HC.
  replace (negb (max_frames =? -1) && (n >? max_frames)) with false.
  - rewrite HT. simpl. unfold float_ne. rewrite HE. reflexivity.
  - symmetry. destruct HM as [-> | Hle]; [reflexivity|].
    apply andb_false_iff. right. rewrite Z.gtb_ltb. apply Z.ltb_ge, Hle.
Qed.

(** What the three checks decide, read backwards. *)
Lemma checks_ok (max_frames : Z) (required : float) (counter : option Z)
    (mocap : Mocap) (n : Z) :
  checks max_frames required counter mocap n = Ret tt ->
  counter = Some n /\ (max_frames = -1 \/ n <= max_frames)
  /\ exists t, frame_time mocap = Ret t /\ PrimFloat.eqb t required = true.
Proof.
  unfold checks.
  destruct (ne_opt_int counter n) eqn:HC; [discriminate|].
  apply ValidatorFacts.ne_opt_int_false in HC.
  destruct (negb (max_frames =? -1) && (n >? max_frames)) eqn:HM; [discriminate|].
  destruct (frame_time mocap) as [t|x]; simpl; [|discriminate].
  unfold float_ne. destruct (PrimFloat.eqb t required) eqn:HE; [|discriminate].
  intros _. split; [assumption|]. split; [|exists t; auto].
  apply andb_false_iff in HM as [HM|HM].
  - left. apply negb_false_iff, Z.eqb_eq in HM. exact HM.
  - right. rewrite Z.gtb_ltb in HM. apply Z.ltb_ge in HM. exact HM.
Qed.

Lemma checks_failure (max_frames : Z) (required : float) (counter : option Z)
    (mocap : Mocap) (n : Z) (msg : message) :
  checks max_frames required counter mocap n = Raise (TaskFailure msg) ->
  (counter <> Some n /\ msg = rows_message counter n)
  \/ (counter = Some n /\ max_frames <> -1 /\ max_frames < n
      /\ msg = too_many_message n max_frames)
  \/ (counter = Some n /\ (max_frames = -1 \/ n <= max_frames)
      /\ exists t, frame_time mocap = Ret t /\ PrimFloat.eqb t required = false
                   /\ msg = frame_time_message t required).
Proof.
  unfold checks.
  destruct (ne_opt_int counter n) eqn:HC.
  { apply ValidatorFacts.ne_opt_int_true in HC. intros H. left.
    split; [assumption|congruence]. }
  apply ValidatorFacts.ne_opt_int_false in HC.
  destruct (negb (max_frames =? -1) && (n >? max_frames)) eqn:HM.
  { apply andb_true_iff in HM as [H1 H2].
    apply negb_true_iff, Z.eqb_neq in H1. apply Z.gtb_lt in H2.
    intros H. right. left. repeat split; try assumption. congruence. }
  assert (HM' : max_frames = -1 \/ n <= max_frames).
  { apply andb_false_iff in HM as [HM|HM].
    - left. apply negb_false_iff, Z.eqb_eq in HM. exact HM.
    - right. rewrite Z.gtb_ltb in HM. apply Z.ltb_ge in HM. exact HM. }
  destruct (frame_time mocap) as [t|x]; simpl; [|discriminate].
  unfold float_ne. destruct (PrimFloat.eqb t required) eqn:HE; [discriminate|].
  intros H. right. right. split; [assumption|]. split; [assumption|].
  exists t. split; [reflexivity|]. split; [exact HE|]. simpl in H. congruence.
Qed.

(** The validator got as far as the three checks. *)
Lemma validate_reached_checks (bvh_file : bytes) (a : unit + message) :
  validate_bvh_file environ bvh_file
    = match a with inl u => Ret u | inr msg => Raise (TaskFailure msg) end ->
  exists max_frames required file_content mocap n,
    limits environ = Ret (max_frames, required)
    /\ decode bvh_file = Ret file_content
    /\ Bvh file_content = Ret mocap
    /\ nframes mocap = Ret n
    /\ checks max_frames required (count_rows file_content) mocap n
       = match a with inl u => Ret u | inr msg => Raise (TaskFailure msg) end.
Proof.
  intros H.
  destruct (limits environ) as [[max_frames required]|e] eqn:HL.
  2:{ exfalso. unfold limits in HL. unfold validate_bvh_file in H.
      destruct (getenv environ "MAX_NUMBER_FRAMES") as [v1|]; simpl in HL, H;
        [|destruct a; discriminate].
      destruct (int_of_str v1); simpl in HL, H; [|destruct a; discriminate].
      destruct (getenv environ "RENDER_FPS") as [v2|]; simpl in HL, H;
        [|destruct a; discriminate].
      destruct (float_of_str v2) as [fps|]; simpl in HL, H;
        [|destruct a; discriminate].
      destruct (truediv 1 fps); simpl in HL, H; [discriminate|].
      destruct a; discriminate. }
  rewrite (ValidatorFacts.validate_reads_limits _ _ _ _ HL) in H.
  destruct (decode bvh_file) as [file_content|x] eqn:HD; simpl in H;
    [|destruct a; discriminate].
  destruct (Bvh file_content) as [mocap|x] eqn:HB; simpl in H;
    [|destruct a; discriminate].
  destruct (nframes mocap) as [n|x] eqn:HN; simpl in H;
    [|destruct a; discriminate].
  exists max_frames, required, file_content, mocap, n. auto.
Qed.

(** X6: the validator accepts nothing else: when it returns, the
    configuration was read, the bytes decode, the reader reports a frame
    count equal to the recount and within the limit, and a frame time equal
    to the required one. *)
Theorem validate_accepts_only (bvh_file : bytes) :
  validate_bvh_file environ bvh_file = Ret tt ->
  exists max_frames required file_content mocap n t,
    limits environ = Ret (max_frames, required)
    /\ decode bvh_file = Ret file_content
    /\ Bvh file_content = Ret mocap
    /\ nframes mocap = Ret n
    /\ frame_time mocap = Ret t
    /\ count_rows file_content = Some n
    /\ (max_frames = -1 \/ n <= max_frames)
    /\ PrimFloat.eqb t required = true.
Proof.
  intros H.
  destruct (validate_reached_checks bvh_file (inl tt) H)
    as (max_frames & required & file_content & mocap & n & HL & HD & HB & HN & HC).
  apply checks_ok in HC as (Hc & Hm & t & Ht & He).
  exists max_frames, required, file_content, mocap, n, t. auto 10.
Qed.

(** X7: the validator raises [TaskFailure] for three reasons only, tested in
    this order: the recount differs from the declared count; else the
    declared count is above a limit other than -1; else the declared frame
    time differs from the required one. *)
Theorem validate_failure_kinds (bvh_file : bytes) (msg : message) :
  validate_bvh_file environ bvh_file = Raise (TaskFailure msg) ->
  exists max_frames required file_content mocap n,
    limits environ = Ret (max_frames, required)
    /\ decode bvh_file = Ret file_content
    /\ Bvh file_content = Ret mocap
    /\ nframes mocap = Ret n
    /\ ((count_rows file_content <> Some n
         /\ msg = rows_message (count_rows file_content) n)
        \/ (count_rows file_content = Some n /\ max_frames <> -1
            /\ max_frames < n /\ msg = too_many_message n max_frames)
        \/ (count_rows file_content = Some n
            /\ (max_frames = -1 \/ n <= max_frames)
            /\ exists t, frame_time mocap = Ret t
                         /\ PrimFloat.eqb t required = false
                         /\ msg = frame_time_message t required)).
Proof.
  intros H.
  destruct (validate_reached_checks bvh_file (inr msg) H)
    as (max_frames & required & file_content & mocap & n & HL & HD & HB & HN & HC).
  apply checks_failure in HC.
  exists max_frames, required, file_content, mocap, n. auto 10.
Qed.

End Outcomes.

Lemma validate_configuration_first_witness :
  @validate_bvh_file numeral_builtins (header_reader 3 ft_24fps)
    (sample_environ "-1" "0") three_rows_exact
  = Raise (Builtin ZeroDivisionError).
Proof.
  apply (@validate_configuration_first numeral_builtins (header_reader 3 ft_24fps)
           (sample_environ "-1" "0") (Builtin ZeroDivisionError)).
  vm_compute. reflexivity.
Defined.

Lemma validate_undecodable_witness :
  @validate_bvh_file numeral_builtins (header_reader 3 ft_24fps)
    (sample_environ "-1" "24") (blit "MOTION" ++ ["255"%byte])
  = Raise (Builtin UnicodeDecodeError).
Proof.
  apply (@validate_undecodable numeral_builtins (header_reader 3 ft_24fps)
           (sample_environ "-1" "24") (blit "MOTION" ++ ["255"%byte]) (-1) ft_24fps).
  - vm_compute. reflexivity.
  - vm_compute. reflexivity.
Defined.

Lemma validate_frame_time_mismatch_witness :
  @validate_bvh_file numeral_builtins (header_reader 3 nan)
    (sample_environ "-1" "24") three_rows_exact
  = Raise (TaskFailure (frame_time_message nan ft_24fps)).
Proof.
  eapply (@validate_frame_time_mismatch numeral_builtins (header_reader 3 nan)
            (sample_environ "-1" "24") three_rows_exact (-1) ft_24fps).
  - vm_compute. reflexivity.
  - vm_compute. reflexivity.
  - reflexivity.
  - reflexivity.
  - reflexivity.
  - vm_compute. reflexivity.
  - left. reflexivity.
  - vm_compute. reflexivity.
Defined.

Lemma validate_accepts_only_witness :
  exists max_frames required file_content mocap n t,
    @limits numeral_builtins (sample_environ "3" "24") = Ret (max_frames, required)
    /\ decode three_rows_exact = Ret file_content
    /\ @Bvh (header_reader 3 ft_24fps) file_content = Ret mocap
    /\ @nframes (header_reader 3 ft_24fps) mocap = Ret n
    /\ @frame_time (header_reader 3 ft_24fps) mocap = Ret t
    /\ count_rows file_content = Some n
    /\ (max_frames = -1 \/ n <= max_frames)
    /\ PrimFloat.eqb t required = true.
Proof.
  apply (@validate_accepts_only numeral_builtins (header_reader 3 ft_24fps)
           (sample_environ "3" "24") three_rows_exact).
  vm_compute. reflexivity.
Defined.

Lemma validate_failure_kinds_witness :
  exists max_frames required file_content mocap n,
    @limits numeral_builtins (sample_environ "2" "24") = Ret (max_frames, required)
    /\ decode three_rows_exact = Ret file_content
    /\ @Bvh (header_reader 3 ft_24fps) file_content = Ret mocap
    /\ @nframes (header_reader 3 ft_24fps) mocap = Ret n
    /\ ((count_rows file_content <> Some n
         /\ too_many_message 3 2 = rows_message (count_rows file_content) n)
        \/ (count_rows file_content = Some n /\ max_frames <> -1
            /\ max_frames < n /\ too_many_message 3 2 = too_many_message n max_frames)
        \/ (count_rows file_content = Some n
            /\ (max_frames = -1 \/ n <= max_frames)
            /\ exists t, @frame_time (header_reader 3 ft_24fps) mocap = Ret t
                         /\ PrimFloat.eqb t required = false
                         /\ too_many_message 3 2 = frame_time_message t required)).
Proof.
  apply (@validate_failure_kinds numeral_builtins (header_reader 3 ft_24fps)
           (sample_environ "2" "24") three_rows_exact (too_many_message 3 2)).
  vm_compute. reflexivity.
Defined.

End ValidatorMore.

(* ===================================================================== *)
(** * More on the render task                                              *)
(* ===================================================================== *)

Module RenderMore.
Import Py Tasks Readings.

Section Loop.
Context {B : Builtins} {P : BvhPackage}.
Variable w : World.
Variable HEADERS : dict str.
Variable API_SERVER : str.

Lemma report_events (total cur : option Z) :
  report total cur
  = (map publish (due (total, cur)), Ret tt).
Proof.
  unfold report, due. destruct total as [t|], cur as [c|]; try reflexivity.
  simpl. destruct (negb (t =? 0) && negb (c =? 0)); reflexivity.
Qed.

(** What the chain of tests can do: nothing to the outside; or open a file
    and fail; or open it and post it. *)
Lemma dispatch_shape (line : str) (total cur : option Z) :
  (fst (dispatch w HEADERS API_SERVER line total cur) = []
   /\ forall body,
       snd (dispatch w HEADERS API_SERVER line total cur) <> Ret (Return body))
  \/ (exists x name e,
        split SPACE line = [x; name] /\ open_error w name = Some e
        /\ dispatch w HEADERS API_SERVER line total cur
           = ([OpenFile name], Raise (Builtin e)))
  \/ (exists x name,
        split SPACE line = [x; name] /\ open_error w name = None
        /\ dispatch w HEADERS API_SERVER line total cur
           = ([OpenFile name; HttpPost (upload_url API_SERVER) (upload_files name) HEADERS],
              match requests_post w (upload_url API_SERVER) (upload_files name) HEADERS with
              | Ret body => Ret (Return body)
              | Raise e => Raise (Builtin e)
              end)).
Proof.
  unfold dispatch, open_rb, tbind, lift, tret, emit.
  destruct (startswith (lit "total_frames ") line).
  { left. destruct (split SPACE line) as [|a [|tok [|? ?]]]; simpl;
      try (split; [reflexivity|discriminate]).
    destruct (float_of_str tok) as [x|]; simpl;
      [|split; [reflexivity|discriminate]].
    destruct (int_of_float x); simpl; split; try reflexivity; discriminate. }
  destruct (startswith (lit "Append frame ") line).
  { left. destruct (int_of_str _); simpl; split; try reflexivity; discriminate. }
  destruct (startswith (lit "output_file") line).
  2:{ left. simpl. split; [reflexivity|discriminate]. }
  destruct (split SPACE line) as [|x [|name [|? ?]]]; simpl;
    try (left; split; [reflexivity|discriminate]).
  destruct (open_error w name) as [e|] eqn:HO; simpl.
  - right. left. exists x, name, e. auto.
  - right. right. exists x, name. split; [reflexivity|]. split; [assumption|].
    fold (upload_url API_SERVER). fold (upload_files name).
    destruct (requests_post w (upload_url API_SERVER) (upload_files name) HEADERS); reflexivity.
Qed.

(** The loop, one line at a time. *)
Lemma for_stdout_cons (raw : bytes) (rest : list bytes) (total cur : option Z) :
  for_stdout w HEADERS API_SERVER (raw :: rest) total cur =
  match decode raw with
  | Raise e => ([], Raise (Builtin e))
  | Ret text =>
      match dispatch w HEADERS API_SERVER (strip text) total cur with
      | (evs, Ret (Next total' cur')) =>
          (evs ++ map publish (due (total', cur'))
             ++ fst (for_stdout w HEADERS API_SERVER rest total' cur'),
           snd (for_stdout w HEADERS API_SERVER rest total' cur'))
      | (evs, Ret (Return v)) => (evs, Ret (Returned v))
      | (evs, Raise e) => (evs, Raise e)
      end
  end.
Proof.
  cbn [for_stdout].
  destruct (decode raw) as [text|e] eqn:HD.
  - rewrite (RenderFacts.loop_body_dispatch _ _ _ _ _ _ _ HD).
    destruct (dispatch w HEADERS API_SERVER (strip text) total cur)
      as [evs [[t' c'|v]|x]]; unfold tbind; simpl.
    + rewrite report_events. simpl. rewrite app_assoc. reflexivity.
    + rewrite app_nil_r. reflexivity.
    + reflexivity.
  - rewrite (RenderFacts.loop_body_decode_error _ _ _ _ _ _ _ HD). reflexivity.
Qed.

Lemma dispatch_unrecognized (raw : bytes) (text : str) (total cur : option Z) :
  decode raw = Ret text ->
  unrecognized raw = true ->
  dispatch w HEADERS API_SERVER (strip text) total cur = ([], Ret (Next total cur)).
Proof.
  unfold unrecognized. intros ->. intros H.
  apply andb_true_iff in H as [H H3]. apply andb_true_iff in H as [H1 H2].
  apply negb_true_iff in H1, H2, H3.
  unfold dispatch. rewrite H1, H2, H3. reflexivity.
Qed.

(** X8: lines that carry none of the three prefixes change nothing, and each
    of them publishes the current pair again once both values are set and
    non-zero. *)
Theorem for_stdout_unrecognized (lines : list bytes) (total cur : option Z) :
  forallb unrecognized lines = true ->
  for_stdout w HEADERS API_SERVER lines total cur
  = (flat_map (fun _ => map publish (due (total, cur))) lines,
     Ret (Exhausted total cur)).
Proof.
  induction lines as [|raw rest IH]; intros H; [reflexivity|].
  simpl in H. apply andb_true_iff in H as [Hraw Hrest].
  rewrite for_stdout_cons.
  destruct (decode raw) as [text|e] eqn:HD.
  - rewrite (dispatch_unrecognized _ _ _ _ HD Hraw), (IH Hrest). reflexivity.
  - unfold unrecognized in Hraw. rewrite HD in Hraw. discriminate.
Qed.

(** X9: the loop never unsets a value: a variable that holds a number before
    a run of lines holds one after it. *)
Theorem for_stdout_keeps_values (lines : list bytes) (total cur total' cur' : option Z)
    (evs : list event) :
  for_stdout w HEADERS API_SERVER lines total cur
    = (evs, Ret (Exhausted total' cur')) ->
  (total <> None -> total' <> None) /\ (cur <> None -> cur' <> None).
Proof.
  revert total cur evs. induction lines as [|raw rest IH]; intros total cur evs H.
  - simpl in H. injection H as _ <- <-. auto.
  - rewrite for_stdout_cons in H.
    destruct (decode raw) as [text|e]; [|discriminate].
    destruct (dispatch w HEADERS API_SERVER (strip text) total cur)
      as [ev1 [[t1 c1|v]|x]] eqn:HD; try discriminate.
    destruct (for_stdout w HEADERS API_SERVER rest t1 c1) as [ev2 r2] eqn:HR.
    simpl in H. injection H as _ ->.
    destruct (IH _ _ _ HR) as [IHt IHc].
    apply RenderFacts.dispatch_next_values in HD.
    destruct HD as [(_ & -> & _ & _ & _ & n & _ & _ & _ & ->)
                   | [(_ & -> & n & _ & ->) | [-> ->]]].
    + split; [intros _; apply IHt; discriminate|exact IHc].
    + split; [exact IHt|intros _; apply IHc; discriminate].
    + split; assumption.
Qed.

Lemma count_posts_app (l1 l2 : list event) :
  count_posts (l1 ++ l2) = (count_posts l1 + count_posts l2)%nat.
Proof. unfold count_posts. rewrite filter_app, length_app. reflexivity. Qed.

Lemma count_posts_publish (ps : list progress) : count_posts (map publish ps) = 0%nat.
Proof. induction ps as [|p ps IH]; [reflexivity|exact IH]. Qed.

(** The loop posts at most once. *)
Lemma for_stdout_posts_once (lines : list bytes) (total cur : option Z) :
  (count_posts (fst (for_stdout w HEADERS API_SERVER lines total cur)) <= 1)%nat.
Proof.
  revert total cur. induction lines as [|raw rest IH]; intros total cur.
  - simpl. unfold count_posts. simpl. lia.
  - rewrite for_stdout_cons.
    destruct (decode raw) as [text|e]; [|simpl; unfold count_posts; simpl; lia].
    destruct (dispatch_shape (strip text) total cur)
      as [[HE HR] | [(x & name & e & _ & _ & HD) | (x & name & _ & _ & HD)]].
    + destruct (dispatch w HEADERS API_SERVER (strip text) total cur)
        as [ev1 [[t1 c1|v]|y]]; simpl in HE; subst ev1; simpl.
      * rewrite count_posts_app, count_posts_publish. apply IH.
      * unfold count_posts. simpl. lia.
      * unfold count_posts. simpl. lia.
    + rewrite HD. unfold count_posts. simpl. lia.
    + rewrite HD.
      destruct (requests_post w (upload_url API_SERVER) (upload_files name) HEADERS);
        unfold count_posts; simpl; lia.
Qed.

(** Every POST of the loop is an upload of a file it has opened. *)
Lemma for_stdout_posts_shape (lines : list bytes) (total cur : option Z)
    (url : str) (files : dict (str * file)) (h : dict str) :
  In (HttpPost url files h) (fst (for_stdout w HEADERS API_SERVER lines total cur)) ->
  exists name,
    url = upload_url API_SERVER /\ files = upload_files name /\ h = HEADERS
    /\ open_error w name = None
    /\ In (OpenFile name) (fst (for_stdout w HEADERS API_SERVER lines total cur)).
Proof.
  revert total cur. induction lines as [|raw rest IH]; intros total cur.
  - simpl. contradiction.
  - rewrite for_stdout_cons.
    destruct (decode raw) as [text|e]; [|simpl; contradiction].
    destruct (dispatch_shape (strip text) total cur)
      as [[HE HR] | [(x & name & e & _ & _ & HD) | (x & name & _ & HO & HD)]].
    + destruct (dispatch w HEADERS API_SERVER (strip text) total cur)
        as [ev1 [[t1 c1|v]|y]]; simpl in HE; subst ev1; simpl;
        try contradiction.
      intros HIn. apply in_app_or in HIn as [HIn|HIn].
      * apply in_map_iff in HIn as (p & Hp & _). discriminate.
      * destruct (IH _ _ HIn) as (name & -> & -> & -> & HO & HI).
        exists name. repeat split; try assumption.
        apply in_or_app. right. exact HI.
    + rewrite HD. simpl. intros [H|[]]. discriminate.
    + rewrite HD.
      assert (HI : In (HttpPost url files h)
                     [OpenFile name;
                      HttpPost (upload_url API_SERVER) (upload_files name) HEADERS] ->
                   exists name0,
                     url = upload_url API_SERVER /\ files = upload_files name0
                     /\ h = HEADERS /\ open_error w name0 = None
                     /\ In (OpenFile name0)
                          [OpenFile name;
                           HttpPost (upload_url API_SERVER) (upload_files name) HEADERS]).
      { intros [H|[H|[]]]; [discriminate|]. injection H as <- <- <-.
        exists name. repeat split; try assumption. left. reflexivity. }
      destruct (requests_post w (upload_url API_SERVER) (upload_files name) HEADERS);
        exact HI.
Qed.

(** The loop returns the body of a response it has received. *)
Lemma for_stdout_returned (lines : list bytes) (total cur : option Z) (body : str) :
  snd (for_stdout w HEADERS API_SERVER lines total cur) = Ret (Returned body) ->
  exists name,
    In (HttpPost (upload_url API_SERVER) (upload_files name) HEADERS)
       (fst (for_stdout w HEADERS API_SERVER lines total cur))
    /\ requests_post w (upload_url API_SERVER) (upload_files name) HEADERS = Ret body.
Proof.
  revert total cur. induction lines as [|raw rest IH]; intros total cur.
  - simpl. discriminate.
  - rewrite for_stdout_cons.
    destruct (decode raw) as [text|e]; [|simpl; discriminate].
    destruct (dispatch_shape (strip text) total cur)
      as [[HE HR] | [(x & name & e & _ & _ & HD) | (x & name & _ & HO & HD)]].
    + destruct (dispatch w HEADERS API_SERVER (strip text) total cur)
        as [ev1 [[t1 c1|v]|y]]; simpl in HE, HR; subst ev1; simpl.
      * intros H. destruct (IH _ _ H) as (name & HI & HP).
        exists name. split; [|exact HP]. apply in_or_app. right. exact HI.
      * exfalso. apply (HR v). reflexivity.
      * discriminate.
    + rewrite HD. simpl. discriminate.
    + rewrite HD.
      destruct (requests_post w (upload_url API_SERVER) (upload_files name) HEADERS)
        as [b|e] eqn:HP; simpl; [|discriminate].
      intros H. injection H as <-. exists name. split; [|exact HP].
      right. left. reflexivity.
Qed.

(** The loop publishes, opens and posts, and does nothing else. *)
Lemma for_stdout_events (lines : list bytes) (total cur : option Z) (ev : event) :
  In ev (fst (for_stdout w HEADERS API_SERVER lines total cur)) ->
  (exists p, ev = publish p) \/ (exists name, ev = OpenFile name)
  \/ (exists name, ev = HttpPost (upload_url API_SERVER) (upload_files name) HEADERS).
Proof.
  revert total cur. induction lines as [|raw rest IH]; intros total cur.
  - simpl. contradiction.
  - rewrite for_stdout_cons.
    destruct (decode raw) as [text|e]; [|simpl; contradiction].
    destruct (dispatch_shape (strip text) total cur)
      as [[HE HR] | [(x & name & e & _ & _ & HD) | (x & name & _ & HO & HD)]].
    + destruct (dispatch w HEADERS API_SERVER (strip text) total cur)
        as [ev1 [[t1 c1|v]|y]]; simpl in HE; subst ev1; simpl;
        try contradiction.
      intros HIn. apply in_app_or in HIn as [HIn|HIn].
      * apply in_map_iff in HIn as (p & <- & _). left. exists p. reflexivity.
      * apply (IH _ _ HIn).
    + rewrite HD. simpl. intros [<-|[]]. right. left. exists name. reflexivity.
    + rewrite HD.
      assert (HI : In ev [OpenFile name;
                          HttpPost (upload_url API_SERVER) (upload_files name) HEADERS] ->
                   (exists p, ev = publish p) \/ (exists name0, ev = OpenFile name0)
                   \/ (exists name0,
                         ev = HttpPost (upload_url API_SERVER) (upload_files name0)
                                HEADERS)).
      { intros [<-|[<-|[]]]; [right; left|right; right]; exists name; reflexivity. }
      destruct (requests_post w (upload_url API_SERVER) (upload_files name) HEADERS);
        exact HI.
Qed.

(** The chain of tests on an output_file line whose file cannot be opened, or
    whose upload fails. *)
Lemma dispatch_output_file_failure (line x name : str) (total cur : option Z) :
  startswith (lit "output_file") line = true ->
  split SPACE line = [x; name] ->
  dispatch w HEADERS API_SERVER line total cur =
    match open_error w name with
    | Some e => ([OpenFile name], Raise (Builtin e))
    | None =>
        ([OpenFile name; HttpPost (upload_url API_SERVER) (upload_files name) HEADERS],
         match requests_post w (upload_url API_SERVER) (upload_files name) HEADERS with
         | Ret body => Ret (Return body)
         | Raise e => Raise (Builtin e)
         end)
    end.
Proof.
  intros HS HSp.
  destruct (RenderFacts.prefixes_exclusive line) as [_ HX].
  destruct (HX HS) as [H1 H2].
  unfold dispatch. rewrite H1, H2, HS, HSp.
  unfold open_rb, tbind, emit, lift, tret. simpl.
  destruct (open_error w name); simpl; [reflexivity|].
  fold (upload_url API_SERVER). fold (upload_files name).
  destruct (requests_post w (upload_url API_SERVER) (upload_files name) HEADERS);
    reflexivity.
Qed.

(** The updates of the loop never carry a zero. *)
Lemma due_nonzero (st : option Z * option Z) (p : progress) :
  In p (due st) -> current p <> 0 /\ total p <> 0.
Proof.
  destruct st as [[t|] [c|]]; simpl; try contradiction.
  destruct (t =? 0) eqn:Ht; simpl; [contradiction|].
  destruct (c =? 0) eqn:Hc; simpl; [contradiction|].
  intros [<-|[]]. simpl. apply Z.eqb_neq in Ht, Hc. auto.
Qed.

End Loop.

(** ** [os.path.basename] *)

Lemma split_fields (sep : Z) (s f : str) : In f (split sep s) -> ~ In sep f.
Proof.
  revert f. induction s as [|c s IH]; intros f; simpl.
  - intros [<-|[]]. simpl. auto.
  - destruct (c =? sep) eqn:E.
    + intros [<-|H]; [simpl; auto|apply IH, H].
    + destruct (split sep s) as [|x xs] eqn:Es.
      * intros [<-|[]]. simpl. apply Z.eqb_neq in E. intuition.
      * intros [<-|H].
        -- simpl. apply Z.eqb_neq in E. intros [H|H]; [congruence|].
           revert H. apply IH. left. reflexivity.
        -- apply IH. right. exact H.
Qed.

Lemma last_in {A} (l : list A) (d : A) : l <> [] -> In (last l d) l.
Proof.
  induction l as [|a l IH]; [congruence|]. intros _.
  destruct l as [|b l]; [left; reflexivity|].
  right. apply IH. discriminate.
Qed.

Lemma split_without_sep (sep : Z) (s : str) : ~ In sep s -> split sep s = [s].
Proof.
  induction s as [|c s IH]; intros H; [reflexivity|]. simpl.
  destruct (c =? sep) eqn:E.
  - apply Z.eqb_eq in E. exfalso. apply H. left. exact E.
  - rewrite IH; [reflexivity|]. intros X. apply H. right. exact X.
Qed.

(** The base name of a path has no slash in it, and a path without a
    slash is its own base name. *)
Theorem basename_no_slash (p : str) :
  ~ In SLASH (basename p) /\ (~ In SLASH p -> basename p = p).
Proof.
  split.
  - unfold basename. apply (split_fields SLASH p).
    apply last_in, ValidatorMore.split_nonempty.
  - intros H. unfold basename. rewrite (split_without_sep _ _ H). reflexivity.
Qed.

(** ** The task on every path *)

Section Task.
Context {B : Builtins} {P : BvhPackage}.
Variable environ : Environ.
Variable w : World.

(** X10: when the token or the address of the API server is missing from the
    environment, the task raises [KeyError] before it does anything: no
    PROCESSING state is published and nothing is requested. *)
Theorem render_missing_variable (uri : str) :
  environ "SYSTEM_TOKEN"%string = None \/ environ "API_SERVER"%string = None ->
  render environ w uri = ([], Raise (Builtin KeyError)).
Proof.
  intros H. unfold render, getenv.
  destruct (environ "SYSTEM_TOKEN"%string) as [token|].
  - destruct H as [H|H]; [discriminate|]. rewrite H. reflexivity.
  - reflexivity.
Qed.

(** X11: when the fetch raises, the task ends with that exception after
    PROCESSING and the request: the validator is not run and no temporary
    file is written. *)
Theorem render_fetch_failure (uri token api : str) (e : builtin_exn) :
  getenv environ "SYSTEM_TOKEN" = Ret token ->
  getenv environ "API_SERVER" = Ret api ->
  requests_get w (api ++ uri) (headers_of token) = Raise e ->
  render environ w uri = (opening api uri token, Raise (Builtin e)).
Proof.
  intros HT HA HG. unfold render. rewrite HT, HA. simpl.
  rewrite !RenderFacts.tbind_lift_ret, !RenderFacts.tbind_emit.
  rewrite HG. reflexivity.
Qed.

(** X12: when the renderer cannot be started, the task ends with that
    exception, and the temporary file it has written is removed. *)
Theorem render_popen_failure (uri token api : str) (bvh_file : bytes)
    (e : builtin_exn) :
  getenv environ "SYSTEM_TOKEN" = Ret token ->
  getenv environ "API_SERVER" = Ret api ->
  requests_get w (api ++ uri) (headers_of token) = Ret bvh_file ->
  validate_bvh_file environ bvh_file = Ret tt ->
  popen w (blender_argv (tmp_name w)) = Raise e ->
  render environ w uri =
    (opening api uri token
       ++ [TmpWrite (tmp_name w) bvh_file; PopenCall (blender_argv (tmp_name w));
           TmpRemove (tmp_name w)],
     Raise (Builtin e)).
Proof.
  intros HT HA HG HV HP. unfold render. rewrite HT, HA. simpl.
  rewrite !RenderFacts.tbind_lift_ret, !RenderFacts.tbind_emit.
  rewrite HG. simpl. rewrite HV, RenderFacts.tbind_lift_ret.
  unfold with_tmpfile. rewrite !RenderFacts.tbind_emit. rewrite HP. reflexivity.
Qed.

(** The paths of the task. *)
Lemma render_paths (uri : str) :
  render environ w uri = ([], Raise (Builtin KeyError))
  \/ (exists token api e,
        getenv environ "SYSTEM_TOKEN" = Ret token
        /\ getenv environ "API_SERVER" = Ret api
        /\ render environ w uri = (opening api uri token, Raise e))
  \/ (exists token api bvh_file e,
        getenv environ "SYSTEM_TOKEN" = Ret token
        /\ getenv environ "API_SERVER" = Ret api
        /\ render environ w uri =
           (opening api uri token
              ++ [TmpWrite (tmp_name w) bvh_file;
                  PopenCall (blender_argv (tmp_name w)); TmpRemove (tmp_name w)],
            Raise (Builtin e)))
  \/ (exists token api bvh_file child,
        getenv environ "SYSTEM_TOKEN" = Ret token
        /\ getenv environ "API_SERVER" = Ret api
        /\ render environ w uri =
           (opening api uri token
              ++ TmpWrite (tmp_name w) bvh_file
              :: PopenCall (blender_argv (tmp_name w))
              :: fst (for_stdout w (headers_of token) api (child_stdout child) None None)
              ++ [TmpRemove (tmp_name w)],
            finish (Popen_init child)
              (snd (for_stdout w (headers_of token) api (child_stdout child)
                      None None)))).
Proof.
  destruct (getenv environ "SYSTEM_TOKEN") as [token|x] eqn:HT.
  2:{ left. unfold render. rewrite HT. unfold getenv in HT.
      destruct (environ "SYSTEM_TOKEN"%string); [discriminate|].
      injection HT as <-. reflexivity. }
  destruct (getenv environ "API_SERVER") as [api|x] eqn:HA.
  2:{ left. unfold render. rewrite HT, HA. unfold getenv in HA.
      destruct (environ "API_SERVER"%string); [discriminate|].
      injection HA as <-. reflexivity. }
  destruct (requests_get w (api ++ uri) (headers_of token)) as [bvh_file|x] eqn:HG.
  2:{ right. left. exists token, api, (Builtin x).
      split; [reflexivity|]. split; [reflexivity|].
      unfold render. rewrite HT, HA. simpl.
      rewrite !RenderFacts.tbind_lift_ret, !RenderFacts.tbind_emit.
      rewrite HG. reflexivity. }
  destruct (validate_bvh_file environ bvh_file) as [[]|x] eqn:HV.
  2:{ right. left. exists token, api, x.
      rewrite (RenderFacts.render_invalid _ _ _ _ _ _ _ HT HA HG HV). auto. }
  destruct (popen w (blender_argv (tmp_name w))) as [child|x] eqn:HP.
  - right. right. right. exists token, api, bvh_file, child.
    rewrite (RenderFacts.render_spawned _ _ _ _ _ _ _ HT HA HG HV HP). auto.
  - right. right. left. exists token, api, bvh_file, x.
    split; [reflexivity|]. split; [reflexivity|].
    unfold render. rewrite HT, HA. simpl.
    rewrite !RenderFacts.tbind_lift_ret, !RenderFacts.tbind_emit.
    rewrite HG. simpl. rewrite HV, RenderFacts.tbind_lift_ret.
    unfold with_tmpfile. rewrite !RenderFacts.tbind_emit. rewrite HP. reflexivity.
Qed.

Lemma opening_events (api uri token : str) (ev : event) :
  In ev (opening api uri token) ->
  ev = LogInfo (lit "rendering..") \/ ev = UpdateState PROCESSING None
  \/ ev = HttpGet (api ++ uri) (headers_of token).
Proof. simpl. intuition. Qed.

(** X13: a temporary file that the task has written is removed when the task
    ends, however it ends: the removal is the last thing it does. *)
Theorem render_removes_tmpfile (uri name : str) (content : bytes) :
  In (TmpWrite name content) (fst (render environ w uri)) ->
  exists evs, fst (render environ w uri) = evs ++ [TmpRemove name].
Proof.
  intros HIn.
  destruct (render_paths uri)
    as [H | [(token & api & e & _ & _ & H)
          | [(token & api & f & e & _ & _ & H)
            | (token & api & f & child & _ & _ & H)]]];
    rewrite H in HIn |- *; cbn [fst] in *.
  - contradiction.
  - apply opening_events in HIn. destruct HIn as [X|[X|X]]; discriminate.
  - apply in_app_or in HIn as [HIn|HIn].
    + apply opening_events in HIn. destruct HIn as [X|[X|X]]; discriminate.
    + destruct HIn as [X|[X|[X|[]]]]; try discriminate. injection X as <- <-.
      exists (opening api uri token
                ++ [TmpWrite (tmp_name w) f; PopenCall (blender_argv (tmp_name w))]).
      rewrite <- app_assoc. reflexivity.
  - apply in_app_or in HIn as [HIn|HIn].
    + apply opening_events in HIn. destruct HIn as [X|[X|X]]; discriminate.
    + destruct HIn as [X|[X|HIn]]; try discriminate.
      * injection X as <- <-.
        exists (opening api uri token
                  ++ TmpWrite (tmp_name w) f :: PopenCall (blender_argv (tmp_name w))
                  :: fst (for_stdout w (headers_of token) api (child_stdout child)
                            None None)).
        rewrite <- app_assoc. reflexivity.
      * apply in_app_or in HIn as [HIn|[X|[]]]; [|discriminate].
        apply for_stdout_events in HIn.
        destruct HIn as [[p X]|[[n X]|[n X]]]; discriminate.
Qed.

(** X14: the task returns only what an upload has answered: when it returns,
    the value is the body of the response to a POST of its trace. It never
    returns [None]: the end of the output without an output_file line is
    always a failure, [returncode] being [None]. *)
Theorem render_returns_upload (uri : str) (r : option str) :
  snd (render environ w uri) = Ret r ->
  exists token api name body,
    r = Some body
    /\ In (HttpPost (upload_url api) (upload_files name) (headers_of token))
          (fst (render environ w uri))
    /\ requests_post w (upload_url api) (upload_files name) (headers_of token)
       = Ret body.
Proof.
  intros HR.
  destruct (render_paths uri)
    as [H | [(token & api & e & _ & _ & H)
          | [(token & api & f & e & _ & _ & H)
            | (token & api & f & child & _ & _ & H)]]];
    rewrite H in HR |- *; cbn [fst snd] in *; try discriminate.
  destruct (snd (for_stdout w (headers_of token) api (child_stdout child) None None))
    as [[t c|body]|e] eqn:HL; simpl in HR.
  - destruct (decode (child_stderr child)); discriminate.
  - injection HR as <-.
    destruct (for_stdout_returned w (headers_of token) api _ _ _ _ HL)
      as (name & HI & HP).
    exists token, api, name, body. split; [reflexivity|]. split; [|exact HP].
    apply in_or_app. right. right. right. apply in_or_app. left. exact HI.
  - discriminate.
Qed.

Lemma rendering_updates_task (api uri token : str) (f : bytes) (mid : list event) :
  rendering_updates
    (opening api uri token
       ++ TmpWrite (tmp_name w) f :: PopenCall (blender_argv (tmp_name w))
       :: mid ++ [TmpRemove (tmp_name w)])
  = rendering_updates mid.
Proof.
  rewrite RenderFacts.rendering_updates_app.
  change (rendering_updates (opening api uri token)) with (@nil progress).
  cbn [app]. unfold rendering_updates at 1. cbn [flat_map rendering_update app].
  fold (rendering_updates (mid ++ [TmpRemove (tmp_name w)])).
  rewrite RenderFacts.rendering_updates_app. cbn. apply app_nil_r.
Qed.

(** X15: no RENDERING update of a render carries a zero, for the current
    frame or for the total. *)
Theorem render_updates_nonzero (uri : str) (p : progress) :
  In p (rendering_updates (fst (render environ w uri))) ->
  current p <> 0 /\ total p <> 0.
Proof.
  intros HIn.
  destruct (render_paths uri)
    as [H | [(token & api & e & _ & _ & H)
          | [(token & api & f & e & _ & _ & H)
            | (token & api & f & child & _ & _ & H)]]];
    rewrite H in HIn; cbn [fst] in HIn.
  - contradiction.
  - contradiction.
  - change [TmpWrite (tmp_name w) f; PopenCall (blender_argv (tmp_name w));
            TmpRemove (tmp_name w)]
      with (TmpWrite (tmp_name w) f :: PopenCall (blender_argv (tmp_name w))
            :: [] ++ [TmpRemove (tmp_name w)]) in HIn.
    rewrite rendering_updates_task in HIn. contradiction.
  - rewrite rendering_updates_task, RenderFacts.for_stdout_updates in HIn.
    apply in_flat_map in HIn as (st & _ & Hp).
    exact (due_nonzero st p Hp).
Qed.

(** X16: every POST of a render is the upload of lines 104-106: to
    [/upload_video] on the API server, one field [file] holding a file the
    task has opened under its base name, which has no slash, with the
    authorization header of the fetch; and a render posts at most once. *)
Theorem render_uploads (uri : str) :
  (count_posts (fst (render environ w uri)) <= 1)%nat
  /\ forall url files h,
      In (HttpPost url files h) (fst (render environ w uri)) ->
      exists token api name,
        getenv environ "SYSTEM_TOKEN" = Ret token
        /\ getenv environ "API_SERVER" = Ret api
        /\ url = api ++ lit "/upload_video"
        /\ files = [(lit "file", (basename name, {| file_name := name |}))]
        /\ ~ In SLASH (basename name)
        /\ h = headers_of token
        /\ open_error w name = None
        /\ In (OpenFile name) (fst (render environ w uri)).
Proof.
  destruct (render_paths uri)
    as [H | [(token & api & e & HT & HA & H)
          | [(token & api & f & e & HT & HA & H)
            | (token & api & f & child & HT & HA & H)]]];
    rewrite H; cbn [fst].
  - split; [unfold count_posts; simpl; lia|]. intros url files h [].
  - split; [unfold count_posts; simpl; lia|]. intros url files h HIn.
    apply opening_events in HIn. destruct HIn as [X|[X|X]]; discriminate.
  - split; [unfold count_posts; simpl; lia|]. intros url files h HIn.
    apply in_app_or in HIn as [HIn|HIn].
    + apply opening_events in HIn. destruct HIn as [X|[X|X]]; discriminate.
    + destruct HIn as [X|[X|[X|[]]]]; discriminate.
  - split.
    + rewrite count_posts_app.
      change (count_posts (opening api uri token)) with 0%nat.
      change (count_posts
                (TmpWrite (tmp_name w) f :: PopenCall (blender_argv (tmp_name w))
                 :: fst (for_stdout w (headers_of token) api (child_stdout child)
                           None None) ++ [TmpRemove (tmp_name w)]))
        with (count_posts
                (fst (for_stdout w (headers_of token) api (child_stdout child)
                        None None) ++ [TmpRemove (tmp_name w)])).
      rewrite count_posts_app.
      change (count_posts [TmpRemove (tmp_name w)]) with 0%nat.
      pose proof (for_stdout_posts_once w (headers_of token) api
                    (child_stdout child) None None). lia.
    + intros url files h HIn.
      apply in_app_or in HIn as [HIn|HIn].
      { apply opening_events in HIn. destruct HIn as [X|[X|X]]; discriminate. }
      destruct HIn as [X|[X|HIn]]; try discriminate.
      apply in_app_or in HIn as [HIn|[X|[]]]; [|discriminate].
      destruct (for_stdout_posts_shape w (headers_of token) api _ _ _ _ _ _ HIn)
        as (name & -> & -> & -> & HO & HI).
      exists token, api, name. repeat split; try assumption; try reflexivity.
      * apply basename_no_slash.
      * apply in_or_app. right. right. right. apply in_or_app. left. exact HI.
Qed.

(** X17: when the loop reaches an output_file line of two tokens and the
    named file cannot be opened, the task ends with the exception of [open]
    and posts nothing; when the file opens and the POST raises, the task ends
    with the exception of the POST. In both cases the temporary file is
    removed. *)
Theorem render_upload_failure (uri token api : str) (bvh_file : bytes)
    (child : Child) (pre rest : list bytes) (raw : bytes) (evs : list event)
    (total cur : option Z) (text x name : str) (e : builtin_exn) :
  getenv environ "SYSTEM_TOKEN" = Ret token ->
  getenv environ "API_SERVER" = Ret api ->
  requests_get w (api ++ uri) (headers_of token) = Ret bvh_file ->
  validate_bvh_file environ bvh_file = Ret tt ->
  popen w (blender_argv (tmp_name w)) = Ret child ->
  child_stdout child = pre ++ raw :: rest ->
  for_stdout w (headers_of token) api pre None None
    = (evs, Ret (Exhausted total cur)) ->
  decode raw = Ret text ->
  startswith (lit "output_file") (strip text) = true ->
  split SPACE (strip text) = [x; name] ->
  (open_error w name = Some e ->
   render environ w uri =
     (opening api uri token
        ++ TmpWrite (tmp_name w) bvh_file :: PopenCall (blender_argv (tmp_name w))
        :: evs ++ [OpenFile name; TmpRemove (tmp_name w)],
      Raise (Builtin e)))
  /\ (open_error w name = None ->
      requests_post w (upload_url api) (upload_files name) (headers_of token)
        = Raise e ->
      render environ w uri =
        (opening api uri token
           ++ TmpWrite (tmp_name w) bvh_file :: PopenCall (blender_argv (tmp_name w))
           :: evs
           ++ [OpenFile name;
               HttpPost (upload_url api) (upload_files name) (headers_of token);
               TmpRemove (tmp_name w)],
         Raise (Builtin e))).
Proof.
  intros HT HA HG HV HP HS HL HD HW HSp.
  rewrite (RenderFacts.render_spawned _ _ _ _ _ _ _ HT HA HG HV HP), HS.
  rewrite (RenderFacts.for_stdout_app _ _ _ _ _ _ _ _ _ _ HL).
  rewrite for_stdout_cons, HD.
  rewrite (dispatch_output_file_failure _ _ _ _ _ _ _ _ HW HSp).
  split.
  - intros ->. cbn. rewrite <- app_assoc. reflexivity.
  - intros -> ->. cbn. rewrite <- app_assoc. reflexivity.
Qed.

(** X18: once the token and the address are read, the task publishes
    PROCESSING before the fetch, and the fetch is its first request, however
    the run goes on. *)
Theorem render_processing_first (uri token api : str) :
  getenv environ "SYSTEM_TOKEN" = Ret token ->
  getenv environ "API_SERVER" = Ret api ->
  exists rest,
    fst (render environ w uri)
    = LogInfo (lit "rendering..") :: UpdateState PROCESSING None
      :: HttpGet (api ++ uri) (headers_of token) :: rest.
Proof.
  intros HT HA. unfold render. rewrite HT, HA. cbn [builtin].
  rewrite !RenderFacts.tbind_lift_ret, !RenderFacts.tbind_emit. cbn [fst snd].
  eexists. reflexivity.
Qed.

End Task.

(** ** Sample runs *)

Lemma render_processing_first_witness :
  exists rest,
    fst (@render numeral_builtins (header_reader 3 ft_24fps) env24 world_offline uri42)
    = LogInfo (lit "rendering..") :: UpdateState PROCESSING None
      :: HttpGet (lit "http://api" ++ uri42) (headers_of (lit "s3cret")) :: rest.
Proof.
  apply (@render_processing_first numeral_builtins (header_reader 3 ft_24fps) env24
           world_offline uri42 (lit "s3cret") (lit "http://api")); reflexivity.
Defined.

Lemma for_stdout_unrecognized_witness :
  @for_stdout numeral_builtins (sample_world three_rows_exact out_log_only [] 0)
    (headers_of (lit "s3cret")) (lit "http://api") out_log_only (Some 10) (Some 2)
  = ([publish {| current := 2; total := 10 |};
      publish {| current := 2; total := 10 |};
      publish {| current := 2; total := 10 |}],
     Ret (Exhausted (Some 10) (Some 2))).
Proof.
  apply (@for_stdout_unrecognized numeral_builtins
           (sample_world three_rows_exact out_log_only [] 0)
           (headers_of (lit "s3cret")) (lit "http://api") out_log_only
           (Some 10) (Some 2)).
  vm_compute. reflexivity.
Defined.

Lemma for_stdout_keeps_values_witness :
  (Some 7 <> None -> Some 10 <> None) /\ (@None Z <> None -> Some 0 <> None).
Proof.
  apply (@for_stdout_keeps_values numeral_builtins
           (sample_world three_rows_exact out_frame_zero [] 0)
           (headers_of (lit "s3cret")) (lit "http://api") out_frame_zero
           (Some 7) None (Some 10) (Some 0) []).
  vm_compute. reflexivity.
Defined.

Lemma render_missing_variable_witness :
  @render numeral_builtins (header_reader 3 ft_24fps) environ_without_token
    (sample_world three_rows_exact out_complete [] 0) uri42
  = ([], Raise (Builtin KeyError)).
Proof.
  apply (@render_missing_variable numeral_builtins (header_reader 3 ft_24fps)
           environ_without_token (sample_world three_rows_exact out_complete [] 0)
           uri42).
  left. reflexivity.
Defined.

Lemma render_fetch_failure_witness :
  @render numeral_builtins (header_reader 3 ft_24fps) env24 world_offline uri42
  = (opening (lit "http://api") uri42 (lit "s3cret"),
     Raise (Builtin RequestException)).
Proof.
  apply (@render_fetch_failure numeral_builtins (header_reader 3 ft_24fps) env24
           world_offline uri42 (lit "s3cret") (lit "http://api") RequestException);
    reflexivity.
Defined.

Lemma render_popen_failure_witness :
  @render numeral_builtins (header_reader 3 ft_24fps) env24
    (world_without_blender three_rows_exact) uri42
  = (opening (lit "http://api") uri42 (lit "s3cret")
       ++ [TmpWrite (lit "/tmp/tmpq1w2e3.bhv") three_rows_exact;
           PopenCall (blender_argv (lit "/tmp/tmpq1w2e3.bhv"));
           TmpRemove (lit "/tmp/tmpq1w2e3.bhv")],
     Raise (Builtin OSError)).
Proof.
  apply (@render_popen_failure numeral_builtins (header_reader 3 ft_24fps) env24
           (world_without_blender three_rows_exact) uri42
           (lit "s3cret") (lit "http://api") three_rows_exact OSError).
  - reflexivity.
  - reflexivity.
  - reflexivity.
  - vm_compute. reflexivity.
  - reflexivity.
Defined.

Lemma render_removes_tmpfile_witness :
  exists evs,
    fst (@render numeral_builtins (header_reader 3 ft_24fps) env24
           (sample_world three_rows_exact out_silent [] 0) uri42)
    = evs ++ [TmpRemove (lit "/tmp/tmpq1w2e3.bhv")].
Proof.
  apply (@render_removes_tmpfile numeral_builtins (header_reader 3 ft_24fps) env24
           (sample_world three_rows_exact out_silent [] 0) uri42
           (lit "/tmp/tmpq1w2e3.bhv") three_rows_exact).
  vm_compute. right. right. right. left. reflexivity.
Defined.

Lemma render_returns_upload_witness :
  exists token api name body,
    Some (lit "uploaded") = Some body
    /\ In (HttpPost (upload_url api) (upload_files name) (headers_of token))
          (fst (@render numeral_builtins (header_reader 3 ft_24fps) env24
                  (sample_world three_rows_exact out_complete [] 0) uri42))
    /\ requests_post (sample_world three_rows_exact out_complete [] 0)
         (upload_url api) (upload_files name) (headers_of token)
       = Ret body.
Proof.
  apply (@render_returns_upload numeral_builtins (header_reader 3 ft_24fps) env24
           (sample_world three_rows_exact out_complete [] 0) uri42
           (Some (lit "uploaded"))).
  vm_compute. reflexivity.
Defined.

Lemma render_updates_nonzero_witness :
  current {| current := 2; total := 10 |} <> 0
  /\ total {| current := 2; total := 10 |} <> 0.
Proof.
  apply (@render_updates_nonzero numeral_builtins (header_reader 3 ft_24fps) env24
           (sample_world three_rows_exact out_complete [] 0) uri42
           {| current := 2; total := 10 |}).
  vm_compute. right. left. reflexivity.
Defined.

Lemma render_upload_failure_witness :
  @render numeral_builtins (header_reader 3 ft_24fps) env24
    (world_upload true [bline "total_frames 10"; bline "output_file /tmp/out.mp4"])
    uri42
  = (opening (lit "http://api") uri42 (lit "s3cret")
       ++ TmpWrite (lit "/tmp/tmpq1w2e3.bhv") three_rows_exact
       :: PopenCall (blender_argv (lit "/tmp/tmpq1w2e3.bhv"))
       :: [] ++ [OpenFile (lit "/tmp/out.mp4"); TmpRemove (lit "/tmp/tmpq1w2e3.bhv")],
     Raise (Builtin OSError))
  /\ @render numeral_builtins (header_reader 3 ft_24fps) env24
       (world_upload false [bline "total_frames 10"; bline "output_file /tmp/out.mp4"])
       uri42
     = (opening (lit "http://api") uri42 (lit "s3cret")
          ++ TmpWrite (lit "/tmp/tmpq1w2e3.bhv") three_rows_exact
          :: PopenCall (blender_argv (lit "/tmp/tmpq1w2e3.bhv"))
          :: [] ++ [OpenFile (lit "/tmp/out.mp4");
                    HttpPost (upload_url (lit "http://api"))
                      (upload_files (lit "/tmp/out.mp4")) (headers_of (lit "s3cret"));
                    TmpRemove (lit "/tmp/tmpq1w2e3.bhv")],
        Raise (Builtin RequestException)).
Proof.
  split.
  - apply (proj1 (@render_upload_failure numeral_builtins (header_reader 3 ft_24fps)
             env24
             (world_upload true [bline "total_frames 10"; bline "output_file /tmp/out.mp4"])
             uri42 (lit "s3cret") (lit "http://api") three_rows_exact
             {| child_stdout := [bline "total_frames 10"; bline "output_file /tmp/out.mp4"];
                child_stderr := []; child_status := 0 |}
             [bline "total_frames 10"] [] (bline "output_file /tmp/out.mp4") []
             (Some 10) None (lit "output_file /tmp/out.mp4" ++ [10])
             (lit "output_file") (lit "/tmp/out.mp4") OSError
             ltac:(reflexivity) ltac:(reflexivity) ltac:(reflexivity)
             ltac:(vm_compute; reflexivity) ltac:(reflexivity) ltac:(reflexivity)
             ltac:(vm_compute; reflexivity) ltac:(vm_compute; reflexivity)
             ltac:(vm_compute; reflexivity) ltac:(vm_compute; reflexivity))).
    reflexivity.
  - apply (proj2 (@render_upload_failure numeral_builtins (header_reader 3 ft_24fps)
             env24
             (world_upload false [bline "total_frames 10"; bline "output_file /tmp/out.mp4"])
             uri42 (lit "s3cret") (lit "http://api") three_rows_exact
             {| child_stdout := [bline "total_frames 10"; bline "output_file /tmp/out.mp4"];
                child_stderr := []; child_status := 0 |}
             [bline "total_frames 10"] [] (bline "output_file /tmp/out.mp4") []
             (Some 10) None (lit "output_file /tmp/out.mp4" ++ [10])
             (lit "output_file") (lit "/tmp/out.mp4") RequestException
             ltac:(reflexivity) ltac:(reflexivity) ltac:(reflexivity)
             ltac:(vm_compute; reflexivity) ltac:(reflexivity) ltac:(reflexivity)
             ltac:(vm_compute; reflexivity) ltac:(vm_compute; reflexivity)
             ltac:(vm_compute; reflexivity) ltac:(vm_compute; reflexivity))).
    + reflexivity.
    + reflexivity.
Defined.

End RenderMore.
